(** * CDN / IPTV endpoint tester: a shallow embedding of [cdn_iptv_tester.py]

    The measurement core of the tester (class [CDNTester]) is transcribed
    method by method: DNS resolution, ASN lookup and hosting-provider
    identification, the latency/jitter probe, the throughput meter, the
    per-endpoint orchestration, the run coordinator and the ranking part of
    the report generator.

    Modelling conventions.
    - Python [str] is Rocq's [string]; [str.lower] is the ASCII case mapping.
    - Python [float] is the exact rational [Q]; a division by zero raises
      [ZeroDivisionError] as in Python, [math.sqrt] is a rounded-down root.
    - A [dict] that is only read by key is a [gmap string _]; the two dicts
      of [generate_report], whose iteration order decides the ranking, are
      insertion-ordered association lists.
    - [await] marks sequential steps of one control flow, so every method
      that touches the network is a function of the world it starts in and
      returns an outcome (a value or a raised exception) and the world it
      leaves behind.  The world carries a monotonic clock, the state of the
      network oracle and the log of the requests made so far.
    - [print] calls are not part of the model. *)

From Stdlib Require Import Ascii String ZArith QArith Qround Lia Lqa Permutation Sorted.
From stdpp Require Import base gmap strings list pretty.

Open Scope string_scope.
Open Scope list_scope.

(* ===================================================================== *)
(** * Python values and strings *)
(* ===================================================================== *)

Module Py.

(** The dynamically typed values that reach the core: fields of a channel
    dict and of the JSON document of the IP lookup.  [PyObj] stands for any
    other object (float, bool, list, nested dict) and carries the text that
    [str()] gives for it. *)
Inductive pyval :=
  | PyNone
  | PyInt (z : Z)
  | PyStr (s : string)
  | PyObj (shown : string).

(** [str(v)], also what an f-string placeholder [{v}] inserts. *)
Definition py_str (v : pyval) : string :=
  match v with
  | PyNone => "None"
  | PyInt z => pretty z
  | PyStr s => s
  | PyObj shown => shown
  end.

(** [d.get(key, dflt)] *)
Definition dict_get (d : gmap string pyval) (key : string) (dflt : pyval) : pyval :=
  default dflt (d !! key).

Definition ascii_lower (c : ascii) : ascii :=
  let n := nat_of_ascii c in
  if (65 <=? n)%nat && (n <=? 90)%nat then ascii_of_nat (n + 32) else c.

(** [s.lower()] *)
Fixpoint lower (s : string) : string :=
  match s with
  | EmptyString => EmptyString
  | String c rest => String (ascii_lower c) (lower rest)
  end.

(** [needle in hay] on strings: substring test. *)
Fixpoint contains (needle hay : string) : bool :=
  String.prefix needle hay ||
  match hay with
  | EmptyString => false
  | String _ rest => contains needle rest
  end.

(** [any(x in s for x in pats)] *)
Definition any_in (pats : list string) (s : string) : bool :=
  existsb (fun x => contains x s) pats.

(** [s in l] for a list of strings. *)
Definition str_in (s : string) (l : list string) : bool :=
  existsb (String.eqb s) l.

(** [s.replace(old, new)] for a non-empty [old]: occurrences are replaced
    from left to right without overlap.  [skip] counts the characters of an
    occurrence of [old] that are still to be dropped. *)
Fixpoint replace_from (old new : string) (skip : nat) (s : string) : string :=
  match s with
  | EmptyString => EmptyString
  | String c rest =>
      match skip with
      | S k => replace_from old new k rest
      | O =>
          if String.prefix old s
          then new +:+ replace_from old new (String.length old - 1) rest
          else String c (replace_from old new 0 rest)
      end
  end.

Definition py_replace (old new s : string) : string := replace_from old new 0 s.

(** [s.split(sep)[0]]: the text before the first separator. *)
Fixpoint split_head (sep : ascii) (s : string) : string :=
  match s with
  | EmptyString => EmptyString
  | String c rest => if Ascii.eqb c sep then EmptyString else String c (split_head sep rest)
  end.

(** What follows the authority in an endpoint: nothing, or a path. *)
Definition path_or_nothing (rest : string) : Prop :=
  rest = "" \/ exists path, rest = "/" +:+ path.

(** Truthiness of a string: [if s]. *)
Definition str_truthy (s : string) : bool := negb (String.eqb s "").

End Py.
Import Py.

(* ===================================================================== *)
(** * Hosting-provider identification *)
(* ===================================================================== *)

(** [CDNTester.identify_hosting_provider]: the [if]/[elif] chain of the
    source, in its order.  [org] is a [str]; [asn] goes through [str()]. *)
Definition identify_hosting_provider (org : string) (asn : pyval) : string :=
  let org_lower := lower org in
  let asn_str := lower (py_str asn) in
  (* Cloud providers *)
  if any_in ["cloudflare"; "cf-"; "cloud flare"] org_lower then "Cloudflare"
  else if any_in ["amazon"; "aws"; "amazon.com"; "ec2"] org_lower then "Amazon Web Services (AWS)"
  else if any_in ["google"; "gcp"; "google cloud"] org_lower then "Google Cloud Platform (GCP)"
  else if any_in ["microsoft"; "azure"; "msft"] org_lower then "Microsoft Azure"
  else if any_in ["digitalocean"; "digital ocean"] org_lower then "DigitalOcean"
  else if any_in ["linode"; "akamai"] org_lower then "Linode/Akamai"
  else if any_in ["ovh"; "ovhcloud"] org_lower then "OVH"
  else if any_in ["hetzner"] org_lower then "Hetzner"
  else if any_in ["vultr"] org_lower then "Vultr"
  else if any_in ["alibaba"; "aliyun"] org_lower then "Alibaba Cloud"
  else if any_in ["oracle"; "oraclecloud"] org_lower then "Oracle Cloud"
  else if any_in ["ibm"; "softlayer"] org_lower then "IBM Cloud"
  else if any_in ["rackspace"] org_lower then "Rackspace"
  else if any_in ["contabo"] org_lower then "Contabo"
  (* CDN providers *)
  else if any_in ["fastly"] org_lower then "Fastly CDN"
  else if any_in ["cdn77"] org_lower then "CDN77"
  else if any_in ["stackpath"; "highwinds"] org_lower then "StackPath"
  else if any_in ["bunny"; "bunnycdn"] org_lower then "BunnyCDN"
  (* Known ASNs *)
  else if str_in asn_str ["13335"; "as13335"] then "Cloudflare"
  else if str_in asn_str ["16509"; "as16509"; "14618"; "as14618"] then "Amazon Web Services (AWS)"
  else if str_in asn_str ["15169"; "as15169"] then "Google Cloud Platform (GCP)"
  else if str_in asn_str ["8075"; "as8075"] then "Microsoft Azure"
  (* Generic categorization *)
  else if any_in ["hosting"; "host"; "server"; "datacenter"; "data center"] org_lower
       then "Hosting Provider (" +:+ org +:+ ")"
  else if any_in ["telecom"; "communications"; "isp"; "internet"] org_lower
       then "ISP/Telecom (" +:+ org +:+ ")"
  else if str_truthy org then org else "Unknown".

(** The same classification read as the ordered rule table of the design:
    a list of (predicate, label) pairs evaluated from the top, the first
    match winning.  [identify_hosting_provider] is compared with it below. *)
Module ProviderTable.

Record rule := Rule {
  rule_applies : string -> string -> bool;   (* org_lower, asn_str *)
  rule_label : string -> string              (* label, given the raw org *)
}.

Definition org_rule (pats : list string) (label : string) : rule :=
  Rule (fun org_lower _ => any_in pats org_lower) (fun _ => label).

Definition asn_rule (codes : list string) (label : string) : rule :=
  Rule (fun _ asn_str => str_in asn_str codes) (fun _ => label).

Definition generic_rule (pats : list string) (category : string) : rule :=
  Rule (fun org_lower _ => any_in pats org_lower)
       (fun org => category +:+ " (" +:+ org +:+ ")").

Definition cloud_rules : list rule :=
  [ org_rule ["cloudflare"; "cf-"; "cloud flare"] "Cloudflare";
    org_rule ["amazon"; "aws"; "amazon.com"; "ec2"] "Amazon Web Services (AWS)";
    org_rule ["google"; "gcp"; "google cloud"] "Google Cloud Platform (GCP)";
    org_rule ["microsoft"; "azure"; "msft"] "Microsoft Azure";
    org_rule ["digitalocean"; "digital ocean"] "DigitalOcean";
    org_rule ["linode"; "akamai"] "Linode/Akamai";
    org_rule ["ovh"; "ovhcloud"] "OVH";
    org_rule ["hetzner"] "Hetzner";
    org_rule ["vultr"] "Vultr";
    org_rule ["alibaba"; "aliyun"] "Alibaba Cloud";
    org_rule ["oracle"; "oraclecloud"] "Oracle Cloud";
    org_rule ["ibm"; "softlayer"] "IBM Cloud";
    org_rule ["rackspace"] "Rackspace";
    org_rule ["contabo"] "Contabo" ].

Definition cdn_rules : list rule :=
  [ org_rule ["fastly"] "Fastly CDN";
    org_rule ["cdn77"] "CDN77";
    org_rule ["stackpath"; "highwinds"] "StackPath";
    org_rule ["bunny"; "bunnycdn"] "BunnyCDN" ].

Definition asn_rules : list rule :=
  [ asn_rule ["13335"; "as13335"] "Cloudflare";
    asn_rule ["16509"; "as16509"; "14618"; "as14618"] "Amazon Web Services (AWS)";
    asn_rule ["15169"; "as15169"] "Google Cloud Platform (GCP)";
    asn_rule ["8075"; "as8075"] "Microsoft Azure" ].

Definition generic_rules : list rule :=
  [ generic_rule ["hosting"; "host"; "server"; "datacenter"; "data center"] "Hosting Provider";
    generic_rule ["telecom"; "communications"; "isp"; "internet"] "ISP/Telecom" ].

Definition provider_table : list rule :=
  cloud_rules ++ cdn_rules ++ asn_rules ++ generic_rules.

Fixpoint first_match (table : list rule) (org_lower asn_str org : string) : option string :=
  match table with
  | [] => None
  | r :: rest =>
      if rule_applies r org_lower asn_str then Some (rule_label r org)
      else first_match rest org_lower asn_str org
  end.

(** [provider_of] as the design words it. *)
Definition provider_of (org : string) (asn : pyval) : string :=
  match first_match provider_table (lower org) (lower (py_str asn)) org with
  | Some label => label
  | None => if str_truthy org then org else "Unknown"
  end.

(** No rule of the table applies to the pair. *)
Definition no_rule_applies (org : string) (asn : pyval) : Prop :=
  Forall (fun r => rule_applies r (lower org) (lower (py_str asn)) = false) provider_table.

End ProviderTable.

(* ===================================================================== *)
(** * The tester object *)
(* ===================================================================== *)

Definition TIVIMATE_UA : string := "TiviMate/4.4.0 (Android 11)".
Definition VLC_UA : string := "VLC/3.0.18 LibVLC/3.0.18".

(** [CDNTester.USER_AGENTS] *)
Definition USER_AGENTS : gmap string string :=
  {[ "tivimate" := TIVIMATE_UA; "vlc" := VLC_UA ]}.

Record CDNTester := {
  username : string;
  password : string;
  user_agent : string
}.

(** [CDNTester.__init__] *)
Definition CDNTester_init (username password user_agent : string) : CDNTester :=
  {| username := username;
     password := password;
     user_agent := default (USER_AGENTS !!! "tivimate") (USER_AGENTS !! lower user_agent) |}.

(* ===================================================================== *)
(** * Exceptions and numbers *)
(* ===================================================================== *)

(** The exceptions that occur, all of them subclasses of [Exception].
    Process-level interruption ([KeyboardInterrupt]) is not a value of this
    type: it is not an error of the network or of the code. *)
Inductive exn :=
  | TimeoutError        (* asyncio.TimeoutError *)
  | ClientError         (* aiohttp.ClientError: refused, reset, bad payload *)
  | GaiError            (* socket.gaierror *)
  | IndexError
  | AttributeError
  | TypeError
  | ValueError          (* also a JSON document that does not parse *)
  | ZeroDivisionError
  | StatisticsError.

(** What a call does: it returns a value or raises. *)
Inductive outcome (A : Type) :=
  | Returned (a : A)
  | Raised (e : exn).
Arguments Returned {A} a.
Arguments Raised {A} e.

#[global] Instance outcome_ret : MRet outcome := fun A a => Returned a.
#[global] Instance outcome_bind : MBind outcome := fun A B f m =>
  match m with
  | Returned a => f a
  | Raised e => Raised e
  end.
#[global] Instance outcome_fmap : FMap outcome := fun A B f m =>
  match m with
  | Returned a => Returned (f a)
  | Raised e => Raised e
  end.

Module Num.
#[local] Open Scope Q_scope.

Definition Qlt_bool (x y : Q) : bool := negb (Qle_bool y x).

(** [a / b] on floats. *)
Definition py_div (a b : Q) : outcome Q :=
  if Qeq_bool b 0 then Raised ZeroDivisionError else Returned (a / b).

(** Nearest integer, ties to the even one. *)
Definition round_half_even (x : Q) : Z :=
  let f := Qfloor x in
  match Qcompare (x - inject_Z f) (1 # 2) with
  | Lt => f
  | Gt => (f + 1)%Z
  | Eq => if Z.even f then f else (f + 1)%Z
  end.

(** [round(x, ndigits)] *)
Definition py_round (x : Q) (ndigits : nat) : Q :=
  let scale := inject_Z (10 ^ Z.of_nat ndigits) in
  inject_Z (round_half_even (x * scale)) / scale.

Definition Qsum (l : list Q) : Q := fold_right Qplus 0 l.

(** The arithmetic mean of a non-empty list. *)
Definition mean (data : list Q) : Q := Qsum data / inject_Z (Z.of_nat (length data)).

(** [statistics.mean] *)
Definition statistics_mean (data : list Q) : outcome Q :=
  match data with
  | [] => Raised StatisticsError
  | _ => Returned (mean data)
  end.

(** [math.sqrt] for a non-negative argument: the root rounded down to a
    multiple of 2^-52. *)
Definition float_sqrt (x : Q) : Q :=
  Z.sqrt (Qnum x * Zpos (Qden x) * 2 ^ 104) # (Qden x * 2 ^ 52).

(** Sum of the squared deviations from [c]. *)
Definition sum_sq_dev (c : Q) (data : list Q) : Q :=
  Qsum (map (fun x => (x - c) * (x - c)) data).

(** The sample variance: squared deviations from the mean over [n - 1]. *)
Definition sample_variance (data : list Q) : Q :=
  let n := inject_Z (Z.of_nat (length data)) in
  sum_sq_dev (mean data) data / (n - 1).

(** The sample standard deviation of at least two points. *)
Definition sample_stdev (data : list Q) : Q := float_sqrt (sample_variance data).

(** [statistics.stdev] *)
Definition statistics_stdev (data : list Q) : outcome Q :=
  if (length data <? 2)%nat then Raised StatisticsError
  else Returned (sample_stdev data).

End Num.
Import Num.

(* ===================================================================== *)
(** * The world: clock, network oracle, request log *)
(* ===================================================================== *)

(** The parsed body of a response, as [await resp.json()] gives it: an
    object, or any other document (on which [.get] is an attribute error). *)
Inductive json_doc :=
  | JObject (fields : gmap string pyval)
  | JOther.

(** An HTTP response whose headers have arrived. *)
Record response := {
  status : Z;
  json : outcome json_doc;
  (** [resp.content.iter_chunked]: the chunks that will arrive, each with
      its length in bytes and the nanoseconds waited for it *)
  chunks : list (N * N);
  (** how the iteration ends after the last chunk: end of body, or raising *)
  ending : option exn
}.

(** One entry of the request log. *)
Inductive event :=
  | EvResolve (domain : string) (result : outcome (list string))
  | EvHead (url ua : string) (t0 t1 : N) (result : outcome Z)
  | EvGet (url : string) (ua : option string) (timeout : Z) (result : outcome response).

(** The network as an oracle over a state of its own.  Every answer comes
    with the nanoseconds it took.  The oracle sees the clock. *)
Record Network (S : Type) := {
  (** [loop.getaddrinfo(domain, None)], each entry reduced to its address
      [entry[4][0]] *)
  net_getaddrinfo : string -> N -> S -> outcome (list string) * N * S;
  (** [session.head(url, headers, timeout, allow_redirects=True)]: the
      status of the final response *)
  net_head : string -> string -> Z -> N -> S -> outcome Z * N * S;
  (** [session.get(url, headers, timeout)] up to the response headers *)
  net_get : string -> option string -> Z -> N -> S -> outcome response * N * S;
  (** [datetime.now().isoformat()] *)
  net_isoformat : N -> S -> string
}.
Arguments net_getaddrinfo {S}.
Arguments net_head {S}.
Arguments net_get {S}.
Arguments net_isoformat {S}.

Record world (S : Type) := World {
  clock_ns : N;              (* the monotonic clock, in nanoseconds *)
  net_state : S;
  trace : list event
}.
Arguments World {S}.
Arguments clock_ns {S}.
Arguments net_state {S}.
Arguments trace {S}.

(** A method that awaits: from a world to an outcome and the world after. *)
Definition io (S A : Type) : Type := world S -> outcome A * world S.

#[global] Instance io_ret {S} : MRet (io S) := fun A a w => (Returned a, w).
#[global] Instance io_bind {S} : MBind (io S) := fun A B f m w =>
  match m w with
  | (Returned a, w1) => f a w1
  | (Raised e, w1) => (Raised e, w1)
  end.

(** A computation without effect on the world. *)
Definition pure_io {S A} (r : outcome A) : io S A := fun w => (r, w).

(** [TestResult] *)
Record TestResult := {
  dns_entry : string;
  channel_id : string;
  channel_name : pyval;
  timestamp : string;
  avg_latency_ms : Q;
  jitter_ms : Q;
  throughput_mbps : Q;
  ip_address : string;
  asn : option string;
  geolocation : option string;
  hosting_provider : option string;
  success_rate : Q;
  error_message : option string
}.

(** A channel as the catalogue delivers it. *)
Abbreviation channel := (gmap string pyval).

(* ===================================================================== *)
(** * The measurement methods of [CDNTester] *)
(* ===================================================================== *)

Section Tester.
Context {S : Type} (net : Network S).
#[local] Open Scope Q_scope.

Abbreviation world := (world S).
Abbreviation io := (io S).

(** ** Primitive operations *)

(** [time.perf_counter()], in seconds *)
Definition perf_counter (w : world) : Q := Z.of_N (clock_ns w) # 1000000000.

(** [datetime.now().isoformat()] *)
Definition now_isoformat (w : world) : string :=
  net_isoformat net (clock_ns w) (net_state w).

Definition datetime_now : io string := fun w => (Returned (now_isoformat w), w).

(** Time passing. *)
Definition tick (ns : N) (w : world) : world :=
  World (clock_ns w + ns)%N (net_state w) (trace w).

(** [await asyncio.sleep(seconds)] *)
Definition asyncio_sleep (seconds : Q) : io () := fun w =>
  (Returned (), tick (Z.to_N (Qfloor (seconds * 1000000000))) w).

(** [await loop.getaddrinfo(domain, None)] *)
Definition getaddrinfo (domain : string) : io (list string) := fun w =>
  let '(r, dt, s) := net_getaddrinfo net domain (clock_ns w) (net_state w) in
  (r, World (clock_ns w + dt)%N s (trace w ++ [EvResolve domain r])).

(** Entering [async with session.head(url, headers={'User-Agent': ua},
    timeout=timeout, allow_redirects=True) as resp]; gives [resp.status]. *)
Definition session_head (url ua : string) (timeout : Z) : io Z := fun w =>
  let '(r, dt, s) := net_head net url ua timeout (clock_ns w) (net_state w) in
  let t1 := (clock_ns w + dt)%N in
  (r, World t1 s (trace w ++ [EvHead url ua (clock_ns w) t1 r])).

(** Entering [async with session.get(url, headers, timeout) as resp]. *)
Definition session_get (url : string) (ua : option string) (timeout : Z) : io response :=
  fun w =>
  let '(r, dt, s) := net_get net url ua timeout (clock_ns w) (net_state w) in
  (r, World (clock_ns w + dt)%N s (trace w ++ [EvGet url ua timeout r])).

(** ** [resolve_dns] *)

(** [return ip[0][4][0]] *)
Definition first_address (ip : list string) : outcome string :=
  match ip with
  | addr :: _ => Returned addr
  | [] => Raised IndexError
  end.

Definition resolve_dns (domain : string) : io (option string) := fun w =>
  let '(r, w1) := getaddrinfo domain w in
  match r ≫= first_address with
  | Returned addr => (Returned (Some addr), w1)
  | Raised _ => (Returned None, w1)                 (* except Exception *)
  end.

(** ** [get_asn_info] *)

(** [data.get(key, dflt)] on the parsed document. *)
Definition json_get (data : json_doc) (key : string) (dflt : pyval) : outcome pyval :=
  match data with
  | JObject fields => Returned (dict_get fields key dflt)
  | JOther => Raised AttributeError
  end.

(** The call [self.identify_hosting_provider(org, asn)] with an [org] taken
    from the document: [org.lower()] exists on a [str] only. *)
Definition call_identify_hosting_provider (org asn : pyval) : outcome string :=
  match org with
  | PyStr s => Returned (identify_hosting_provider s asn)
  | _ => Raised AttributeError
  end.

(** The statements under [if resp.status == 200]. *)
Definition asn_fields (resp : response) : outcome (string * string * string) :=
  data ← json resp;
  asn_v ← json_get data "asn" (PyStr "Unknown");
  org_v ← json_get data "org" (PyStr "Unknown");
  let asn := "AS" +:+ py_str asn_v +:+ " - " +:+ py_str org_v in
  city_v ← json_get data "city" (PyStr "Unknown");
  country_v ← json_get data "country_name" (PyStr "Unknown");
  let geo := py_str city_v +:+ ", " +:+ py_str country_v in
  org_arg ← json_get data "org" (PyStr "");
  asn_arg ← json_get data "asn" (PyStr "");
  hosting ← call_identify_hosting_provider org_arg asn_arg;
  mret (asn, geo, hosting).

(** [f'https://ipapi.co/{ip}/json/'] *)
Definition ipapi_url (ip : string) : string := "https://ipapi.co/" +:+ ip +:+ "/json/".

Definition get_asn_info (ip : string)
  : io (option string * option string * option string) := fun w =>
  let '(r, w1) := session_get (ipapi_url ip) None 5 w in
  let body : outcome (option (string * string * string)) :=
    resp ← r;
    if (status resp =? 200)%Z then Some <$> asn_fields resp else mret None in
  match body with
  | Returned (Some (asn, geo, hosting)) => (Returned (Some asn, Some geo, Some hosting), w1)
  | Returned None => (Returned (None, None, None), w1)
  | Raised _ => (Returned (None, None, None), w1)   (* except Exception *)
  end.

(** ** [measure_latency] *)

Definition ACCEPTED_STATUS : list Z := [200; 302; 401; 403]%Z.

Definition status_accepted (status : Z) : bool :=
  existsb (Z.eqb status) ACCEPTED_STATUS.

(** The [for _ in range(num_pings)] loop; [latencies] is the list it
    appends to. *)
Fixpoint ping_loop (t : CDNTester) (url : string) (pings : nat) (latencies : list Q)
  (w : world) : list Q * world :=
  match pings with
  | O => (latencies, w)
  | Datatypes.S pings' =>
      let start := perf_counter w in
      match session_head url (user_agent t) 10 w with
      | (Returned status, w1) =>
          let latency := (perf_counter w1 - start) * 1000 in
          let latencies' :=
            if status_accepted status then latencies ++ [latency] else latencies in
          let '(_, w2) := asyncio_sleep (1 # 2) w1 in
          ping_loop t url pings' latencies' w2
      | (Raised _, w1) => ping_loop t url pings' latencies w1   (* except Exception: continue *)
      end
  end.

(** The statements after the loop. *)
Definition latency_summary (latencies : list Q) : outcome (option Q * option Q) :=
  match latencies with
  | [] => mret (None, None)
  | _ =>
      avg_latency ← statistics_mean latencies;
      jitter ← (if (1 <? length latencies)%nat then statistics_stdev latencies else mret 0);
      mret (Some avg_latency, Some jitter)
  end.

Definition measure_latency (t : CDNTester) (url : string) (num_pings : Z)
  : io (option Q * option Q) := fun w =>
  let '(latencies, w1) := ping_loop t url (Z.to_nat num_pings) [] w in
  (latency_summary latencies, w1).

(** ** [measure_throughput] *)

(** The [async for chunk in resp.content.iter_chunked(8192)] loop.  Gives
    the exception that ended it, if any, the value of [bytes_downloaded] and
    the world at that point. *)
Fixpoint read_chunks (start : Q) (duration : Z) (body : list (N * N)) (ending : option exn)
  (bytes_downloaded : N) (w : world) : option exn * N * world :=
  match body with
  | [] => (ending, bytes_downloaded, w)
  | (len, dt) :: rest =>
      let w1 := tick dt w in
      let bytes_downloaded' := (bytes_downloaded + len)%N in
      if Qlt_bool (inject_Z duration) (perf_counter w1 - start)
      then (None, bytes_downloaded', w1)                            (* break *)
      else read_chunks start duration rest ending bytes_downloaded' w1
  end.

Definition mbps (bytes_downloaded : N) (seconds : Q) : outcome Q :=
  py_div (inject_Z (Z.of_N bytes_downloaded * 8)) (seconds * 1000000).

(** The body of the [try]: its outcome, together with [bytes_downloaded]. *)
Definition throughput_attempt (t : CDNTester) (url : string) (duration : Z) (w : world)
  : outcome (option Q) * N * world :=
  let start := perf_counter w in
  match session_get url (Some (user_agent t)) (duration + 5) w with
  | (Raised e, w1) => (Raised e, 0%N, w1)
  | (Returned resp, w1) =>
      if negb (status resp =? 200)%Z then (Returned None, 0%N, w1)
      else
        match read_chunks start duration (chunks resp) (ending resp) 0%N w1 with
        | (Some e, bytes_downloaded, w2) => (Raised e, bytes_downloaded, w2)
        | (None, bytes_downloaded, w2) =>
            let elapsed := perf_counter w2 - start in
            (Some <$> mbps bytes_downloaded elapsed, bytes_downloaded, w2)
        end
  end.

Definition measure_throughput (t : CDNTester) (url : string) (duration : Z)
  : io (option Q) := fun w =>
  let '(r, bytes_downloaded, w1) := throughput_attempt t url duration w in
  match r with
  | Returned throughput => (Returned throughput, w1)
  | Raised TimeoutError =>                             (* except asyncio.TimeoutError *)
      if (0 <? bytes_downloaded)%N
      then (Some <$> mbps bytes_downloaded (inject_Z duration), w1)
      else (Returned None, w1)
  | Raised _ => (Returned None, w1)                    (* except Exception *)
  end.

(** ** [test_endpoint] *)

(** [dns_entry.replace('http://', '').replace('https://', '').split('/')[0]] *)
Definition endpoint_domain (dns_entry : string) : string :=
  split_head "/" (py_replace "https://" "" (py_replace "http://" "" dns_entry)).

(** [if ip_address] on the optional address. *)
Definition address_truthy (ip_address : option string) : bool :=
  match ip_address with
  | Some ip => str_truthy ip
  | None => false
  end.

(** The record appended for a channel when the endpoint did not resolve. *)
Definition dns_failure_result (dns_entry now : string) (ch : channel) : TestResult :=
  {| dns_entry := dns_entry;
     channel_id := py_str (dict_get ch "stream_id" (PyStr "unknown"));
     channel_name := dict_get ch "name" (PyStr "Unknown");
     timestamp := now;
     avg_latency_ms := 0;
     jitter_ms := 0;
     throughput_mbps := 0;
     ip_address := "N/A";
     asn := None;
     geolocation := None;
     hosting_provider := None;
     success_rate := 0;
     error_message := Some "DNS resolution failed" |}.

(** [round(x, ndigits)] on what may be [None]. *)
Definition py_round_opt (x : option Q) (ndigits : nat) : outcome Q :=
  match x with
  | Some v => Returned (py_round v ndigits)
  | None => Raised TypeError
  end.

(** [round(throughput, 2) if throughput else 0] *)
Definition throughput_or_zero (throughput : option Q) : Q :=
  match throughput with
  | Some v => if Qeq_bool v 0 then 0 else py_round v 2
  | None => 0
  end.

(** [f"{dns_entry}/live/{self.username}/{self.password}/{stream_id}.ts"] *)
Definition stream_url (t : CDNTester) (dns_entry : string) (stream_id : pyval) : string :=
  dns_entry +:+ "/live/" +:+ username t +:+ "/" +:+ password t +:+ "/"
    +:+ py_str stream_id +:+ ".ts".

(** The record appended for a channel whose latency probe gave no data. *)
Definition connection_failed_result (dns_entry ip_address : string)
  (asn geo hosting : option string) (stream_id channel_name : pyval) (now : string)
  : TestResult :=
  {| dns_entry := dns_entry;
     channel_id := py_str stream_id;
     channel_name := channel_name;
     timestamp := now;
     avg_latency_ms := 0;
     jitter_ms := 0;
     throughput_mbps := 0;
     ip_address := ip_address;
     asn := asn;
     geolocation := geo;
     hosting_provider := hosting;
     success_rate := 0;
     error_message := Some "Connection failed" |}.

(** The record appended for a channel whose latency was measured. *)
Definition measured_result (dns_entry ip_address : string)
  (asn geo hosting : option string) (stream_id channel_name : pyval) (now : string)
  (avg_rounded jitter_rounded : Q) (throughput : option Q) : TestResult :=
  {| dns_entry := dns_entry;
     channel_id := py_str stream_id;
     channel_name := channel_name;
     timestamp := now;
     avg_latency_ms := avg_rounded;
     jitter_ms := jitter_rounded;
     throughput_mbps := throughput_or_zero throughput;
     ip_address := ip_address;
     asn := asn;
     geolocation := geo;
     hosting_provider := hosting;
     success_rate := 100;
     error_message := None |}.

(** One iteration of [for channel in channels]: it appends one record. *)
Definition test_channel (t : CDNTester) (dns_entry ip_address : string)
  (asn geo hosting : option string) (ch : channel) : io TestResult :=
  let stream_id := dict_get ch "stream_id" PyNone in
  let channel_name := dict_get ch "name" (PyStr "Unknown") in
  let url := stream_url t dns_entry stream_id in
  (* Measure latency and jitter *)
  '(avg_latency, jitter) ← measure_latency t url 5;
  match avg_latency with
  | None =>
      now ← datetime_now;
      mret (connection_failed_result dns_entry ip_address asn geo hosting
              stream_id channel_name now)                          (* continue *)
  | Some _ =>
      (* Measure throughput *)
      throughput ← measure_throughput t url 5;
      now ← datetime_now;
      avg_rounded ← pure_io (py_round_opt avg_latency 2);
      jitter_rounded ← pure_io (py_round_opt jitter 2);
      mret (measured_result dns_entry ip_address asn geo hosting
              stream_id channel_name now avg_rounded jitter_rounded throughput)
  end.

(** [for channel in channels], appending to [results]. *)
Fixpoint channel_loop (t : CDNTester) (dns_entry ip_address : string)
  (asn geo hosting : option string) (channels : list channel) (results : list TestResult)
  : io (list TestResult) :=
  match channels with
  | [] => mret results
  | ch :: rest =>
      result ← test_channel t dns_entry ip_address asn geo hosting ch;
      channel_loop t dns_entry ip_address asn geo hosting rest (results ++ [result])
  end.

Definition test_endpoint (t : CDNTester) (dns_entry : string) (channels : list channel)
  : io (list TestResult) :=
  let domain := endpoint_domain dns_entry in
  ip_address ← resolve_dns domain;
  if negb (address_truthy ip_address)
  then
    now ← datetime_now;
    mret (map (dns_failure_result dns_entry now) channels)
  else
    '(asn, geo, hosting) ← get_asn_info (default "" ip_address);
    channel_loop t dns_entry (default "" ip_address) asn geo hosting channels [].

(** ** [run_tests] *)

(** [for dns_entry in dns_entries], extending [all_results]. *)
Fixpoint endpoint_loop (t : CDNTester) (dns_entries : list string) (channels : list channel)
  (all_results : list TestResult) : io (list TestResult) :=
  match dns_entries with
  | [] => mret all_results
  | dns_entry :: rest =>
      results ← test_endpoint t dns_entry channels;
      _ ← asyncio_sleep 1;
      endpoint_loop t rest channels (all_results ++ results)
  end.

Definition run_tests (t : CDNTester) (dns_entries : list string) (channels : list channel)
  : io (list TestResult) :=
  endpoint_loop t dns_entries channels [].

End Tester.

(* ===================================================================== *)
(** * The ranking of [generate_report] *)
(* ===================================================================== *)

Module Report.
#[local] Open Scope Q_scope.

(** A score: a float, or [float('inf')]. *)
Inductive score :=
  | Finite (q : Q)
  | PosInf.

(** [a < b] on scores. *)
Definition score_ltb (a b : score) : bool :=
  match a, b with
  | Finite x, Finite y => Qlt_bool x y
  | Finite _, PosInf => true
  | PosInf, _ => false
  end.

(** [key in d] for an insertion-ordered dict. *)
Definition dict_has {V} (d : list (string * V)) (key : string) : bool :=
  existsb (fun kv => String.eqb (fst kv) key) d.

(** [d[key] = f(d[key])] for a key that is present: the entry keeps its place. *)
Definition dict_update {V} (key : string) (f : V -> V) (d : list (string * V))
  : list (string * V) :=
  map (fun kv => if String.eqb (fst kv) key then (fst kv, f (snd kv)) else kv) d.

(** One iteration of the grouping loop. *)
Definition by_dns_add (by_dns : list (string * list TestResult)) (result : TestResult)
  : list (string * list TestResult) :=
  let by_dns1 :=
    if negb (dict_has by_dns (dns_entry result))
    then by_dns ++ [(dns_entry result, [])]
    else by_dns in
  dict_update (dns_entry result) (fun res_list => res_list ++ [result]) by_dns1.

(** [by_dns] after the grouping loop. *)
Definition group_by_dns (results : list TestResult) : list (string * list TestResult) :=
  fold_left by_dns_add results [].

(** [[r for r in res_list if r.success_rate > 0]] *)
Definition successful (res_list : list TestResult) : list TestResult :=
  List.filter (fun r => Qlt_bool 0 (success_rate r)) res_list.

(** The score given to one endpoint. *)
Definition dns_score (res_list : list TestResult) : outcome score :=
  match successful res_list with
  | [] => mret PosInf
  | succ =>
      avg_latency ← statistics_mean (map avg_latency_ms succ);
      avg_throughput ← statistics_mean (map throughput_mbps succ);
      mret (Finite (avg_latency - avg_throughput * 10))
  end.

(** [dns_scores] after the loop over [by_dns.items()]. *)
Fixpoint score_all (items : list (string * list TestResult))
  : outcome (list (string * score)) :=
  match items with
  | [] => mret []
  | (dns, res_list) :: rest =>
      sc ← dns_score res_list;
      scores ← score_all rest;
      mret ((dns, sc) :: scores)
  end.

(** [sorted(items, key=...)]: the stable ascending sort, as an insertion
    sort that puts an item before the first one it is not greater than. *)
Fixpoint insort_left {A} (lt : A -> A -> bool) (x : A) (l : list A) : list A :=
  match l with
  | [] => [x]
  | y :: rest => if lt y x then y :: insort_left lt x rest else x :: l
  end.

Definition py_sorted {A} (lt : A -> A -> bool) (l : list A) : list A :=
  fold_right (insort_left lt) [] l.

Definition by_score (a b : string * score) : bool := score_ltb (snd a) (snd b).

(** [sorted_dns]: the order in which the report lists the endpoints,
    rank 1 first. *)
Definition sorted_dns (results : list TestResult) : outcome (list (string * score)) :=
  dns_scores ← score_all (group_by_dns results);
  mret (py_sorted by_score dns_scores).

End Report.
Import Report.

(* ===================================================================== *)
(** * Concrete networks and inputs *)
(* ===================================================================== *)

Module Examples.

(** A network on which nothing resolves and nothing connects. *)
Definition dead_net : Network () := {|
  net_getaddrinfo := fun _ _ s => (Raised GaiError, 1000000%N, s);
  net_head := fun _ _ _ _ s => (Raised ClientError, 1000000%N, s);
  net_get := fun _ _ _ _ s => (Raised ClientError, 1000000%N, s);
  net_isoformat := fun t _ => pretty t
|}.

Definition start_of_run {S} (s : S) : world S := World 0%N s [].

Definition ipapi_document : json_doc :=
  JObject {[ "asn" := PyStr "AS13335"; "org" := PyStr "Cloudflare Hosting Ltd";
             "city" := PyStr "Vienna"; "country_name" := PyStr "Austria" ]}.

Definition ipapi_response : response :=
  {| status := 200; json := Returned ipapi_document; chunks := []; ending := None |}.

(** A stream of six chunks of 8192 bytes, one per second. *)
Definition stream_response : response :=
  {| status := 200; json := Raised ValueError;
     chunks := replicate 6 (8192%N, 1000000000%N); ending := None |}.

(** A stream that delivers two chunks and then stalls until the request
    times out. *)
Definition stalling_response : response :=
  {| status := 200; json := Raised ValueError;
     chunks := [(8192%N, 1000000000%N); (4096%N, 1000000000%N)];
     ending := Some TimeoutError |}.

(** The answers to the successive HEAD requests of a run: the state of the
    network counts them. *)
Definition head_script : list (outcome Z * N) :=
  [ (Returned 200%Z, 20000000%N);
    (Raised TimeoutError, 10000000000%N);
    (Returned 403%Z, 24000000%N);
    (Raised TimeoutError, 10000000000%N);
    (Returned 302%Z, 22000000%N) ].

(** Every name resolves; the IP lookup answers; HEAD requests follow
    [head_script] and fail once it is used up; streams are served by
    [stream] . *)
Definition scripted_net (stream : response) : Network nat := {|
  net_getaddrinfo := fun _ _ s => (Returned ["203.0.113.7"; "203.0.113.8"], 3000000%N, s);
  net_head := fun _ _ _ _ s =>
    let '(r, dt) := nth s head_script (Raised ClientError, 5000000%N) in
    (r, dt, Datatypes.S s);
  net_get := fun url _ _ _ s =>
    if String.prefix "https://ipapi.co/" url
    then (Returned ipapi_response, 40000000%N, s)
    else (Returned stream, 30000000%N, s);
  net_isoformat := fun t _ => pretty t
|}.

(** On this network only hosts below [good.example] resolve, and every
    probe is answered. *)
Definition partial_net : Network () := {|
  net_getaddrinfo := fun domain _ s =>
    if contains "good.example" domain
    then (Returned ["198.51.100.4"], 2000000%N, s)
    else (Raised GaiError, 2000000%N, s);
  net_head := fun _ _ _ _ s => (Returned 200%Z, 15000000%N, s);
  net_get := fun url _ _ _ s =>
    if String.prefix "https://ipapi.co/" url
    then (Raised TimeoutError, 5000000000%N, s)
    else (Returned stream_response, 30000000%N, s);
  net_isoformat := fun t _ => pretty t
|}.

(** Every name resolves, and every request is answered 503. *)
Definition unavailable_net : Network () := {|
  net_getaddrinfo := fun _ _ s => (Returned ["192.0.2.9"], 2000000%N, s);
  net_head := fun _ _ _ _ s => (Returned 503%Z, 9000000%N, s);
  net_get := fun _ _ _ _ s =>
    (Returned {| status := 503; json := Raised ValueError; chunks := []; ending := None |},
     9000000%N, s);
  net_isoformat := fun t _ => pretty t
|}.

(** Every name resolves, and every request is answered 401: the round
    trip can be timed, nothing can be downloaded. *)
Definition unauthorized_net : Network () := {|
  net_getaddrinfo := fun _ _ s => (Returned ["192.0.2.10"], 2000000%N, s);
  net_head := fun _ _ _ _ s => (Returned 401%Z, 12000000%N, s);
  net_get := fun _ _ _ _ s =>
    (Returned {| status := 401; json := Raised ValueError; chunks := []; ending := None |},
     12000000%N, s);
  net_isoformat := fun t _ => pretty t
|}.

Definition tester : CDNTester := CDNTester_init "alice" "secret" "VLC".

Definition channel_1 : channel := {[ "stream_id" := PyInt 101; "name" := PyStr "News" ]}.
Definition channel_2 : channel := {[ "stream_id" := PyInt 102; "name" := PyStr "Sport" ]}.

End Examples.

(* ===================================================================== *)
(** * Vocabulary of the statements *)
(* ===================================================================== *)

Module Log.
#[local] Open Scope Q_scope.

(** The requests made between two worlds all satisfy [P]. *)
Definition emits {S} (P : event -> Prop) (w w' : world S) : Prop :=
  exists evs, trace w' = trace w ++ evs /\ Forall P evs.

(** The requests logged after world [w] up to world [w']. *)
Definition logged_between {S} (w w' : world S) : list event :=
  drop (length (trace w)) (trace w').

Definition is_head (ev : event) : Prop :=
  match ev with EvHead _ _ _ _ _ => True | _ => False end.

(** A HEAD request for [url] that presents the user agent [ua]. *)
Definition head_of (url ua : string) (ev : event) : Prop :=
  match ev with
  | EvHead url' ua' _ _ _ => url' = url /\ ua' = ua
  | _ => False
  end.

(** The user agent a request presents, when it presents one. *)
Definition presented_ua (ev : event) : option string :=
  match ev with
  | EvResolve _ _ => None
  | EvHead _ ua _ _ _ => Some ua
  | EvGet _ ua _ _ => ua
  end.

(** The round trip of a request from clock [t0] to clock [t1], in ms. *)
Definition latency_ms (t0 t1 : N) : Q :=
  ((Z.of_N t1 # 1000000000) - (Z.of_N t0 # 1000000000)) * 1000.

(** A logged HEAD request counts when it was answered with an accepted
    status. *)
Definition counts (ev : event) : bool :=
  match ev with
  | EvHead _ _ _ _ (Returned status) => status_accepted status
  | _ => false
  end.

(** The latency sample a logged request contributes, if it counts. *)
Definition event_samples (ev : event) : list Q :=
  match ev with
  | EvHead _ _ t0 t1 _ => if counts ev then [latency_ms t0 t1] else []
  | _ => []
  end.

Definition samples (evs : list event) : list Q := flat_map event_samples evs.

End Log.
Import Log.

Module Records.
#[local] Open Scope Q_scope.

(** [str(channel.get('stream_id'))] and [channel.get('name', 'Unknown')] *)
Definition item_id (ch : channel) : string := py_str (dict_get ch "stream_id" PyNone).
Definition item_name (ch : channel) : pyval := dict_get ch "name" (PyStr "Unknown").

(** The success indicator is 0 with an error message, or 100 without. *)
Definition binary_indicator (r : TestResult) : Prop :=
  (success_rate r = 0 /\ error_message r <> None) \/
  (success_rate r = 100 /\ error_message r = None).

(** A failure-marked record: indicator 0, a message, all metrics zero. *)
Definition failure_marked (r : TestResult) : Prop :=
  success_rate r = 0 /\ error_message r <> None /\
  avg_latency_ms r = 0 /\ jitter_ms r = 0 /\ throughput_mbps r = 0.

(** [r] is a record for endpoint [dns] and item [ch]. *)
Definition record_of (dns : string) (ch : channel) (r : TestResult) : Prop :=
  dns_entry r = dns /\
  channel_name r = item_name ch /\
  (channel_id r = item_id ch \/ (ch !! "stream_id" = None /\ channel_id r = "unknown")) /\
  binary_indicator r.

(** The (endpoint, item) pairing a record carries. *)
Definition pairing (r : TestResult) : string * string := (dns_entry r, channel_id r).

(** A request that presents a user agent presents the tester's. *)
Definition sent_by (t : CDNTester) (ev : event) : Prop :=
  forall ua, presented_ua ev = Some ua -> ua = user_agent t.

Definition known_ua (ev : event) : Prop :=
  forall ua, presented_ua ev = Some ua -> ua = TIVIMATE_UA \/ ua = VLC_UA.

End Records.
Import Records.

Module Ranking.
#[local] Open Scope Q_scope.

(** The distinct keys of a list, in the order of their first occurrence. *)
Definition first_seen (keys : list string) : list string :=
  fold_left (fun seen k => if existsb (fun k' => String.eqb k' k) seen then seen else seen ++ [k])
            keys [].

(** The records of one endpoint, in their order. *)
Definition records_of_dns (dns : string) (results : list TestResult) : list TestResult :=
  List.filter (fun r => String.eqb (dns_entry r) dns) results.

(** mean latency - 10 x mean throughput over the successful records of a
    group; positive infinity for a group without successful record. *)
Definition composite_score (res_list : list TestResult) : score :=
  match successful res_list with
  | [] => PosInf
  | succ => Finite (mean (map avg_latency_ms succ) - 10 * mean (map throughput_mbps succ))
  end.

(** Equality of scores as numbers. *)
Definition score_equiv (a b : score) : Prop :=
  match a, b with
  | Finite x, Finite y => x == y
  | PosInf, PosInf => True
  | _, _ => False
  end.

(** [a] is ranked no later than [b] may be: [b] is not smaller. *)
Definition not_after (a b : string * score) : Prop := score_ltb (snd b) (snd a) = false.

(** The two scores are tied: neither is smaller. *)
Definition tied (sc : score) (entry : string * score) : bool :=
  negb (score_ltb (snd entry) sc) && negb (score_ltb sc (snd entry)).

End Ranking.
Import Ranking.

Module Traffic.
#[local] Open Scope Q_scope.

(** A request of the measurement of endpoint [dns]: a HEAD probe or the
    download of a stream below [dns], presenting the tester's user agent. *)
Definition measurement_of (t : CDNTester) (dns : string) (ev : event) : Prop :=
  match ev with
  | EvHead url ua t0 t1 _ =>
      ua = user_agent t /\ String.prefix (dns +:+ "/live/") url = true /\ (t0 <= t1)%N
  | EvGet url ua timeout _ =>
      ua = Some (user_agent t) /\ String.prefix (dns +:+ "/live/") url = true /\
      timeout = 10%Z
  | EvResolve _ _ => False
  end.

(** A HEAD request that was answered, whatever the status. *)
Definition answered (ev : event) : bool :=
  match ev with
  | EvHead _ _ _ _ (Returned _) => true
  | _ => false
  end.

(** The nanoseconds a logged HEAD request took. *)
Definition round_trip_ns (ev : event) : N :=
  match ev with
  | EvHead _ _ t0 t1 _ => (t1 - t0)%N
  | _ => 0%N
  end.

Definition total_ns (evs : list event) : N := fold_right N.add 0%N (map round_trip_ns evs).

(** [r] is the record of one iteration over channel [ch] of an endpoint
    that resolved to [ip] and was classified as [(asn, geo, hosting)]:
    either the probe gave no data, or it gave a latency and the meter
    returned. *)
Definition channel_result {S} (net : Network S) (t : CDNTester) (dns ip : string)
  (asn geo hosting : option string) (ch : channel) (r : TestResult) : Prop :=
  let stream_id := dict_get ch "stream_id" PyNone in
  let name := dict_get ch "name" (PyStr "Unknown") in
  (exists now, r = connection_failed_result dns ip asn geo hosting stream_id name now) \/
  (exists now w0 w1 avg jitter throughput,
      fst (measure_latency net t (stream_url t dns stream_id) 5 w0)
        = Returned (Some avg, Some jitter) /\
      fst (measure_throughput net t (stream_url t dns stream_id) 5 w1) = Returned throughput /\
      r = measured_result dns ip asn geo hosting stream_id name now
            (py_round avg 2) (py_round jitter 2) throughput).

(** The three metrics of a record are not negative. *)
Definition metrics_nonneg (r : TestResult) : Prop :=
  0 <= avg_latency_ms r /\ 0 <= jitter_ms r /\ 0 <= throughput_mbps r.

(** A record without success carries no measurement. *)
Definition failure_has_no_metrics (r : TestResult) : Prop :=
  success_rate r = 0 ->
  avg_latency_ms r = 0 /\ jitter_ms r = 0 /\ throughput_mbps r = 0.

End Traffic.
Import Traffic.

(* ===================================================================== *)
(** * The catalogue: Xtream API calls and interactive selection *)
(* ===================================================================== *)

Module Catalogue.

(** A parsed JSON document of the player API. *)
#[warnings="-register-all"]
Inductive jvalue :=
  | JNull
  | JBool (b : bool)
  | JNum (z : Z)
  | JText (s : string)
  | JArray (items : list jvalue)
  | JDict (fields : gmap string jvalue).

(** A response of the player API: its status and what [await resp.json()]
    does. *)
Record api_response := {
  api_status : Z;
  api_json : outcome jvalue
}.

(** The catalogue service as an oracle, like [Network]:
    [session.get(api_url, timeout=timeout)]. *)
Record Api (S : Type) := {
  api_answer : string -> Z -> N -> S -> outcome api_response * N * S
}.
Arguments api_answer {S}.

Section Calls.
Context {S : Type} (api : Api S).

(** Entering [async with session.get(api_url, timeout=timeout) as resp].
    The request log of the world is kept for the measurement run; these
    calls precede it and are not entered. *)
Definition api_get (api_url : string) (timeout : Z) : io S api_response := fun w =>
  let '(r, dt, s) := api_answer api api_url timeout (clock_ns w) (net_state w) in
  (r, World (clock_ns w + dt)%N s (trace w)).

(** [f"{dns_entry}/player_api.php?username={self.username}&password={self.password}"] *)
Definition player_api (t : CDNTester) (dns_entry : string) : string :=
  dns_entry +:+ "/player_api.php?username=" +:+ username t +:+ "&password=" +:+ password t.

(** [CDNTester.get_xtream_categories] *)
Definition get_xtream_categories (t : CDNTester) (dns_entry : string) : io S (list jvalue) :=
  fun w =>
  let api_url := player_api t dns_entry +:+ "&action=get_live_categories" in
  let '(r, w1) := api_get api_url 30 w in
  let body : outcome (list jvalue) :=
    resp ← r;
    if negb (api_status resp =? 200)%Z then mret []
    else
      categories ← api_json resp;
      match categories with
      | JArray [] => mret []                    (* len(categories) == 0 *)
      | JArray items => mret items
      | _ => mret []                            (* not a list *)
      end in
  match body with
  | Returned categories => (Returned categories, w1)
  | Raised _ => (Returned [], w1)                     (* except Exception *)
  end.

(** [CDNTester.get_channels_by_category] *)
Definition get_channels_by_category (t : CDNTester) (dns_entry category_id : string)
  : io S (list jvalue) := fun w =>
  let api_url :=
    player_api t dns_entry +:+ "&action=get_live_streams&category_id=" +:+ category_id in
  let '(r, w1) := api_get api_url 30 w in
  let body : outcome (list jvalue) :=
    resp ← r;
    if negb (api_status resp =? 200)%Z then mret []
    else
      channels ← api_json resp;
      match channels with
      | JArray items => mret items
      | _ => mret []
      end in
  match body with
  | Returned channels => (Returned channels, w1)
  | Raised _ => (Returned [], w1)                     (* except Exception *)
  end.

(** [value.get(key, dflt)]: only a dict has [get]. *)
Definition jvalue_get (value : jvalue) (key : string) (dflt : jvalue) : outcome jvalue :=
  match value with
  | JDict fields => Returned (default dflt (fields !! key))
  | _ => Raised AttributeError
  end.

(** [status == 'Active'] *)
Definition is_active (status : jvalue) : bool :=
  match status with
  | JText s => String.eqb s "Active"
  | _ => false
  end.

(** [CDNTester.verify_xtream_credentials] *)
Definition verify_xtream_credentials (t : CDNTester) (dns_entry : string) : io S bool :=
  fun w =>
  let api_url := player_api t dns_entry in
  let '(r, w1) := api_get api_url 10 w in
  let body : outcome bool :=
    resp ← r;
    if (api_status resp =? 200)%Z then
      data ← api_json resp;
      match data with
      | JDict fields =>
          match fields !! "user_info" with
          | Some user_info =>
              status ← jvalue_get user_info "status" (JText "");
              if is_active status then mret true
              else mret true             (* prints the account status *)
          | None => mret true
          end
      | _ => mret true
      end
    else mret false in
  match body with
  | Returned verdict => (Returned verdict, w1)
  | Raised _ => (Returned false, w1)                  (* except Exception *)
  end.

End Calls.

(** What a parsed document must look like for the verification to pass:
    anything, except an object whose [user_info] is not itself an object. *)
Definition passes_verification (data : jvalue) : Prop :=
  match data with
  | JDict fields =>
      match fields !! "user_info" with
      | Some (JDict _) | None => True
      | Some _ => False
      end
  | _ => True
  end.

(** ** The selection prompts of [interactive_category_selection] *)

(** [c.isspace()] on the ASCII range. *)
Definition is_space (c : ascii) : bool :=
  let n := nat_of_ascii c in
  ((9 <=? n)%nat && (n <=? 13)%nat) || ((28 <=? n)%nat && (n <=? 32)%nat).

(** [s.split()]: the maximal runs of characters that are not white space.
    [token] is the run being read. *)
Fixpoint split_from (token : string) (s : string) : list string :=
  match s with
  | EmptyString => if str_truthy token then [token] else []
  | String c rest =>
      if is_space c
      then (if str_truthy token then token :: split_from "" rest else split_from "" rest)
      else split_from (token +:+ String c "") rest
  end.

Definition py_split (s : string) : list string := split_from "" s.

Fixpoint lstrip (s : string) : string :=
  match s with
  | EmptyString => EmptyString
  | String c rest => if is_space c then lstrip rest else s
  end.

Fixpoint rstrip (s : string) : string :=
  match s with
  | EmptyString => EmptyString
  | String c rest =>
      let kept := rstrip rest in
      if is_space c && negb (str_truthy kept) then EmptyString else String c kept
  end.

(** [s.strip()] *)
Definition py_strip (s : string) : string := rstrip (lstrip s).

Definition digit_of (c : ascii) : option Z :=
  let n := nat_of_ascii c in
  if (48 <=? n)%nat && (n <=? 57)%nat then Some (Z.of_nat n - 48)%Z else None.

(** The value of a run of decimal digits in which single underscores may
    separate digits; [after_digit] tells whether the previous character was
    a digit. *)
Fixpoint digits_value (acc : Z) (after_digit : bool) (s : string) : option Z :=
  match s with
  | EmptyString => if after_digit then Some acc else None
  | String c rest =>
      match digit_of c with
      | Some d => digits_value (acc * 10 + d) true rest
      | None =>
          if Ascii.eqb c "_" && after_digit then digits_value acc false rest else None
      end
  end.

(** [int(x)] for a string without white space, in base 10. *)
Definition py_int (x : string) : outcome Z :=
  let parsed :=
    match x with
    | String "+" rest => digits_value 0 false rest
    | String "-" rest => Z.opp <$> digits_value 0 false rest
    | _ => digits_value 0 false x
    end in
  match parsed with
  | Some n => Returned n
  | None => Raised ValueError
  end.

(** [[int(x) - 1 for x in selection.split()]] *)
Fixpoint indices_of (tokens : list string) : outcome (list Z) :=
  match tokens with
  | [] => mret []
  | x :: rest =>
      n ← py_int x;
      indices ← indices_of rest;
      mret ((n - 1)%Z :: indices)
  end.

(** [[items[i] for i in indices if 0 <= i < len(items)]] *)
Fixpoint pick {A} (items : list A) (indices : list Z) : list A :=
  match indices with
  | [] => []
  | i :: rest =>
      if (0 <=? i)%Z && (i <? Z.of_nat (length items))%Z
      then match items !! Z.to_nat i with
           | Some item => item :: pick items rest
           | None => pick items rest
           end
      else pick items rest
  end.

(** The category prompt: [line] is what [input("> ")] returned. *)
Definition select_categories {A} (line : string) (categories : list A) : list A :=
  let selection := py_strip line in
  if str_truthy selection then
    match indices_of (py_split selection) with
    | Returned indices => pick categories indices
    | Raised _ => categories              (* except (ValueError, IndexError) *)
    end
  else categories.

(** The channel prompt, with its limit of ten. *)
Definition select_channels {A} (line : string) (all_channels : list A) : list A :=
  let selection := py_strip line in
  if str_truthy selection then
    match indices_of (py_split selection) with
    | Returned indices => take 10 (pick all_channels indices)
    | Raised _ => take 10 all_channels    (* except (ValueError, IndexError) *)
    end
  else take 10 all_channels.

End Catalogue.
Import Catalogue.

Module MoreExamples.

(** The IP lookup answers 200 with a document whose [org] is null. *)
Definition null_org_net : Network () := {|
  net_getaddrinfo := fun _ _ s => (Returned ["192.0.2.11"], 2000000%N, s);
  net_head := fun _ _ _ _ s => (Returned 200%Z, 12000000%N, s);
  net_get := fun _ _ _ _ s =>
    (Returned {| status := 200;
                 json := Returned (JObject {[ "asn" := PyStr "AS64500"; "org" := PyNone ]});
                 chunks := []; ending := None |},
     12000000%N, s);
  net_isoformat := fun t _ => pretty t
|}.

(** The player API answers 200 with an account that has expired. *)
Definition expired_account_api : Api () := {|
  api_answer := fun _ _ _ s =>
    (Returned {| api_status := 200;
                 api_json := Returned (JDict {[ "user_info" :=
                               JDict {[ "status" := JText "Expired" ]} ]}) |},
     50000000%N, s)
|}.

(** The player API answers 200 with two categories. *)
Definition two_categories : list jvalue :=
  [ JDict {[ "category_id" := JText "1"; "category_name" := JText "News" ]};
    JDict {[ "category_id" := JText "2"; "category_name" := JText "Sport" ]} ].

Definition catalogue_api : Api () := {|
  api_answer := fun _ _ _ s =>
    (Returned {| api_status := 200; api_json := Returned (JArray two_categories) |},
     50000000%N, s)
|}.

(** The player API is down. *)
Definition failing_api : Api () := {|
  api_answer := fun _ _ _ s => (Raised ClientError, 50000000%N, s)
|}.

End MoreExamples.

Module Stream.
#[local] Open Scope Q_scope.



End Stream.
Import Stream.

(* ===================================================================== *)
(** * Theorems *)
(* ===================================================================== *)

Section ProviderFacts.
Import ProviderTable.

Lemma identify_is_first_match org asn :
  identify_hosting_provider org asn = provider_of org asn.
Proof.
  unfold identify_hosting_provider, provider_of, provider_table.
  cbn [cloud_rules cdn_rules asn_rules generic_rules app first_match
       org_rule asn_rule generic_rule rule_applies rule_label].
  repeat (match goal with |- context [if ?b then _ else _] => destruct b end; try reflexivity).
Qed.

End ProviderFacts.

Lemma str_truthy_false (s : string) : str_truthy s = false <-> s = "".
Proof.
  unfold str_truthy. destruct (String.eqb_spec s ""); simpl; split; congruence.
Qed.

Section ProviderFacts2.
Import ProviderTable.

Lemma first_match_split table pre r post org_lower asn_str org :
  table = pre ++ r :: post ->
  Forall (fun r' => rule_applies r' org_lower asn_str = false) pre ->
  rule_applies r org_lower asn_str = true ->
  first_match table org_lower asn_str org = Some (rule_label r org).
Proof.
  intros -> Hpre Hr. induction Hpre as [|r' pre Hr' _ IH]; simpl.
  - now rewrite Hr.
  - now rewrite Hr'.
Qed.

Lemma first_match_none table org_lower asn_str org :
  Forall (fun r => rule_applies r org_lower asn_str = false) table ->
  first_match table org_lower asn_str org = None.
Proof.
  induction 1 as [|r table Hr _ IH]; simpl; [reflexivity|]. now rewrite Hr.
Qed.

(** C3. [identify_hosting_provider] is the first-match evaluation of the
    ordered rule table ([provider_of]); it returns a string for every
    organisation string and every ASN value.  A rule decides as soon as no
    rule above it applies, so an organisation containing "cloudflare" is
    labelled Cloudflare whatever else it contains ("hosting" included).
    When no rule applies the result is the raw organisation string, and
    "Unknown" for the empty one. *)
Theorem identify_hosting_provider_first_match (org : string) (asn : pyval) :
  identify_hosting_provider org asn = provider_of org asn /\
  (forall pre r post,
      provider_table = pre ++ r :: post ->
      Forall (fun r' => rule_applies r' (lower org) (lower (py_str asn)) = false) pre ->
      rule_applies r (lower org) (lower (py_str asn)) = true ->
      identify_hosting_provider org asn = rule_label r org) /\
  (contains "cloudflare" (lower org) = true ->
      identify_hosting_provider org asn = "Cloudflare") /\
  (no_rule_applies org asn ->
      (org = "" -> identify_hosting_provider org asn = "Unknown") /\
      (org <> "" -> identify_hosting_provider org asn = org)).
Proof.
  split; [apply identify_is_first_match|].
  split; [|split].
  - intros pre r post Htable Hpre Hr.
    rewrite identify_is_first_match. unfold provider_of.
    now rewrite (first_match_split _ _ _ _ _ _ _ Htable Hpre Hr).
  - intros Hcf. unfold identify_hosting_provider, any_in. simpl existsb.
    now rewrite Hcf.
  - intros Hnone. rewrite identify_is_first_match. unfold provider_of.
    rewrite (first_match_none _ _ _ _ Hnone).
    split; intros Horg.
    + now subst org.
    + destruct (str_truthy org) eqn:E; [reflexivity|].
      now apply str_truthy_false in E.
Qed.

Lemma identify_hosting_provider_first_match_witness :
  identify_hosting_provider "Cloudflare Hosting Ltd" (PyStr "AS64500") = "Cloudflare" /\
  identify_hosting_provider "Example Hosting GmbH" (PyInt 13335) = "Cloudflare" /\
  identify_hosting_provider "" (PyInt 64500) = "Unknown" /\
  identify_hosting_provider "Acme Corp" PyNone = "Acme Corp".
Proof.
  split; [|split; [|split]].
  - apply (identify_hosting_provider_first_match "Cloudflare Hosting Ltd" (PyStr "AS64500")).
    reflexivity.
  - apply (proj1 (proj2 (identify_hosting_provider_first_match
                           "Example Hosting GmbH" (PyInt 13335)))
             (cloud_rules ++ cdn_rules)
             (asn_rule ["13335"; "as13335"] "Cloudflare")
             (tl asn_rules ++ generic_rules)).
    + reflexivity.
    + repeat (constructor; [reflexivity|]). constructor.
    + reflexivity.
  - apply (identify_hosting_provider_first_match "" (PyInt 64500)).
    + unfold no_rule_applies. repeat (constructor; [reflexivity|]). constructor.
    + reflexivity.
  - apply (identify_hosting_provider_first_match "Acme Corp" PyNone).
    + unfold no_rule_applies. repeat (constructor; [reflexivity|]). constructor.
    + discriminate.
Defined.

End ProviderFacts2.

Lemma USER_AGENTS_lookup (key : string) :
  USER_AGENTS !! key =
    if String.eqb key "tivimate" then Some TIVIMATE_UA
    else if String.eqb key "vlc" then Some VLC_UA else None.
Proof.
  unfold USER_AGENTS.
  destruct (String.eqb_spec key "tivimate") as [->|Ht]; [reflexivity|].
  rewrite lookup_insert_ne by congruence.
  destruct (String.eqb_spec key "vlc") as [->|Hv]; [reflexivity|].
  now rewrite lookup_singleton_ne.
Qed.

(* --------------------------------------------------------------------- *)
(** ** The resolver and the classifier *)
(* --------------------------------------------------------------------- *)

Section Lookup.
Context {S : Type} (net : Network S).

Lemma resolve_dns_eq domain (w : world S) :
  resolve_dns net domain w =
    (match fst (getaddrinfo net domain w) ≫= first_address with
     | Returned addr => Returned (Some addr)
     | Raised _ => Returned None
     end, snd (getaddrinfo net domain w)).
Proof.
  unfold resolve_dns. destruct (getaddrinfo net domain w) as [r w1]. simpl.
  now destruct (r ≫= first_address).
Qed.

Lemma resolve_dns_returns domain (w : world S) :
  exists r, resolve_dns net domain w = (Returned r, snd (getaddrinfo net domain w)).
Proof.
  rewrite resolve_dns_eq.
  destruct (fst (getaddrinfo net domain w) ≫= first_address); eauto.
Qed.

Lemma get_asn_info_eq ip (w : world S) :
  get_asn_info net ip w =
    (match fst (session_get net (ipapi_url ip) None 5 w) with
     | Returned resp =>
         if (status resp =? 200)%Z then
           match asn_fields resp with
           | Returned (asn, geo, hosting) => Returned (Some asn, Some geo, Some hosting)
           | Raised _ => Returned (None, None, None)
           end
         else Returned (None, None, None)
     | Raised _ => Returned (None, None, None)
     end, snd (session_get net (ipapi_url ip) None 5 w)).
Proof.
  unfold get_asn_info.
  destruct (session_get net _ None 5 w) as [[resp|e] w1]; simpl; [|reflexivity].
  destruct (status resp =? 200)%Z; [|reflexivity].
  destruct (asn_fields resp) as [[[a g] h]|e]; reflexivity.
Qed.

Lemma get_asn_info_returns ip (w : world S) :
  exists r, get_asn_info net ip w = (Returned r, snd (session_get net (ipapi_url ip) None 5 w)).
Proof.
  rewrite get_asn_info_eq.
  destruct (fst (session_get net (ipapi_url ip) None 5 w)) as [resp|e]; eauto.
  destruct (status resp =? 200)%Z; eauto.
  destruct (asn_fields resp) as [[[a g] h]|e]; eauto.
Qed.

Lemma fst_getaddrinfo domain (w : world S) :
  fst (getaddrinfo net domain w) =
  fst (fst (net_getaddrinfo net domain (clock_ns w) (net_state w))).
Proof.
  unfold getaddrinfo. now destruct (net_getaddrinfo net domain _ _) as [[r dt] s].
Qed.

Lemma fst_session_get url ua timeout (w : world S) :
  fst (session_get net url ua timeout w) =
  fst (fst (net_get net url ua timeout (clock_ns w) (net_state w))).
Proof.
  unfold session_get. now destruct (net_get net url ua timeout _ _) as [[r dt] s].
Qed.

(** C8. Neither the resolver nor the classifier ever raises.  When the
    system resolver fails, whatever the exception, [resolve_dns] returns
    [None].  When the IP lookup fails to connect or times out, answers with
    a status other than 200, or delivers a body that does not parse,
    [get_asn_info] returns [(None, None, None)]. *)
Theorem resolver_and_classifier_never_raise (domain ip : string) (w : world S) :
  (exists r w1, resolve_dns net domain w = (Returned r, w1)) /\
  (forall e dt s,
      net_getaddrinfo net domain (clock_ns w) (net_state w) = (Raised e, dt, s) ->
      fst (resolve_dns net domain w) = Returned None) /\
  (exists r w1, get_asn_info net ip w = (Returned r, w1)) /\
  (forall e dt s,
      net_get net (ipapi_url ip) None 5 (clock_ns w) (net_state w) = (Raised e, dt, s) ->
      fst (get_asn_info net ip w) = Returned (None, None, None)) /\
  (forall resp dt s,
      net_get net (ipapi_url ip) None 5 (clock_ns w) (net_state w) = (Returned resp, dt, s) ->
      status resp <> 200%Z \/ (exists e, json resp = Raised e) ->
      fst (get_asn_info net ip w) = Returned (None, None, None)).
Proof.
  split; [|split; [|split; [|split]]].
  - destruct (resolve_dns_returns domain w) as [r Hr]. eauto.
  - intros e dt s Hnet. rewrite resolve_dns_eq, fst_getaddrinfo, Hnet. reflexivity.
  - destruct (get_asn_info_returns ip w) as [r Hr]. eauto.
  - intros e dt s Hnet. rewrite get_asn_info_eq, fst_session_get, Hnet. reflexivity.
  - intros resp dt s Hnet Hbad. rewrite get_asn_info_eq, fst_session_get, Hnet. simpl.
    destruct (Z.eqb_spec (status resp) 200) as [H200|Hne]; [|reflexivity].
    destruct Hbad as [Hst|[e He]]; [contradiction|].
    unfold asn_fields. rewrite He. reflexivity.
Qed.

End Lookup.

Lemma resolver_and_classifier_never_raise_witness :
  fst (resolve_dns Examples.dead_net "cdn.example" (Examples.start_of_run ())) = Returned None /\
  fst (get_asn_info Examples.dead_net "192.0.2.9" (Examples.start_of_run ()))
    = Returned (None, None, None) /\
  fst (get_asn_info Examples.unavailable_net "192.0.2.9" (Examples.start_of_run ()))
    = Returned (None, None, None).
Proof.
  split; [|split].
  - apply (proj1 (proj2 (resolver_and_classifier_never_raise Examples.dead_net
             "cdn.example" "192.0.2.9" (Examples.start_of_run ())))
             GaiError 1000000%N ()).
    reflexivity.
  - apply (proj1 (proj2 (proj2 (proj2 (resolver_and_classifier_never_raise Examples.dead_net
             "cdn.example" "192.0.2.9" (Examples.start_of_run ())))))
             ClientError 1000000%N ()).
    reflexivity.
  - apply (proj2 (proj2 (proj2 (proj2 (resolver_and_classifier_never_raise
             Examples.unavailable_net "cdn.example" "192.0.2.9" (Examples.start_of_run ())))))
             {| status := 503; json := Raised ValueError; chunks := []; ending := None |}
             9000000%N ()).
    + reflexivity.
    + left. discriminate.
Defined.

(* --------------------------------------------------------------------- *)
(** ** The request log *)
(* --------------------------------------------------------------------- *)

Section LogFacts.
Context {S : Type} (net : Network S).

Lemma emits_same_trace P (w w' : world S) : trace w' = trace w -> emits P w w'.
Proof. intros H. exists []. split; [now rewrite app_nil_r | constructor]. Qed.

Lemma emits_refl P (w : world S) : emits P w w.
Proof. now apply emits_same_trace. Qed.

Lemma emits_trans P (w1 w2 w3 : world S) :
  emits P w1 w2 -> emits P w2 w3 -> emits P w1 w3.
Proof.
  intros (e1 & H1 & F1) (e2 & H2 & F2). exists (e1 ++ e2). split.
  - rewrite H2, H1. now rewrite app_assoc.
  - apply Forall_app; auto.
Qed.

Lemma emits_weaken (P Q : event -> Prop) (w w' : world S) :
  (forall ev, P ev -> Q ev) -> emits P w w' -> emits Q w w'.
Proof.
  intros HPQ (evs & H & F). exists evs. split; [exact H|].
  eapply Forall_impl; eauto.
Qed.

Lemma emits_one (P : event -> Prop) (w w' : world S) ev :
  trace w' = trace w ++ [ev] -> P ev -> emits P w w'.
Proof. intros H HP. exists [ev]. split; [exact H|]. repeat constructor; exact HP. Qed.

Lemma emits_tick P ns (w : world S) : emits P w (tick ns w).
Proof. now apply emits_same_trace. Qed.

Lemma emits_sleep P seconds (w : world S) : emits P w (snd (asyncio_sleep seconds w)).
Proof. now apply emits_same_trace. Qed.

Lemma session_head_world url ua timeout (w : world S) :
  exists r dt s,
    net_head net url ua timeout (clock_ns w) (net_state w) = (r, dt, s) /\
    session_head net url ua timeout w =
      (r, World (clock_ns w + dt)%N s
            (trace w ++ [EvHead url ua (clock_ns w) (clock_ns w + dt)%N r])).
Proof.
  unfold session_head.
  destruct (net_head net url ua timeout (clock_ns w) (net_state w)) as [[r dt] s].
  now exists r, dt, s.
Qed.

Lemma session_get_world url ua timeout (w : world S) :
  exists r dt s,
    net_get net url ua timeout (clock_ns w) (net_state w) = (r, dt, s) /\
    session_get net url ua timeout w =
      (r, World (clock_ns w + dt)%N s (trace w ++ [EvGet url ua timeout r])).
Proof.
  unfold session_get.
  destruct (net_get net url ua timeout (clock_ns w) (net_state w)) as [[r dt] s].
  now exists r, dt, s.
Qed.

Lemma getaddrinfo_world domain (w : world S) :
  exists r dt s,
    net_getaddrinfo net domain (clock_ns w) (net_state w) = (r, dt, s) /\
    getaddrinfo net domain w =
      (r, World (clock_ns w + dt)%N s (trace w ++ [EvResolve domain r])).
Proof.
  unfold getaddrinfo.
  destruct (net_getaddrinfo net domain (clock_ns w) (net_state w)) as [[r dt] s].
  now exists r, dt, s.
Qed.

(** The probe loop logs one HEAD request per attempt, and what it appends
    to [latencies] are the samples of the requests that count. *)
Lemma ping_loop_log t url pings latencies (w : world S) :
  exists evs,
    trace (snd (ping_loop net t url pings latencies w)) = trace w ++ evs /\
    length evs = pings /\
    Forall (head_of url (user_agent t)) evs /\
    fst (ping_loop net t url pings latencies w) = latencies ++ samples evs.
Proof.
  revert latencies w. induction pings as [|pings IH]; intros latencies w.
  - exists []. simpl. rewrite !app_nil_r. repeat split; constructor.
  - simpl.
    destruct (session_head_world url (user_agent t) 10 w) as (r & dt & s & _ & ->).
    set (ev := EvHead url (user_agent t) (clock_ns w) (clock_ns w + dt)%N r).
    destruct r as [status|e].
    + match goal with |- context [ping_loop net t url pings ?l ?w'] =>
        destruct (IH l w') as (evs & Htr & Hlen & Hall & Hfst) end.
      exists (ev :: evs). rewrite Htr, Hfst. simpl. repeat split.
      * now rewrite <- app_assoc.
      * now rewrite Hlen.
      * constructor; [now split | exact Hall].
      * unfold samples. simpl. unfold perf_counter, latency_ms. simpl.
        destruct (status_accepted status); simpl; [now rewrite <- app_assoc | reflexivity].
    + match goal with |- context [ping_loop net t url pings ?l ?w'] =>
        destruct (IH l w') as (evs & Htr & Hlen & Hall & Hfst) end.
      exists (ev :: evs). rewrite Htr, Hfst. simpl. repeat split.
      * now rewrite <- app_assoc.
      * now rewrite Hlen.
      * constructor; [now split | exact Hall].
Qed.

End LogFacts.

Lemma logged_between_app {S} (w w' : world S) evs :
  trace w' = trace w ++ evs -> logged_between w w' = evs.
Proof. intros H. unfold logged_between. rewrite H. apply drop_app_length. Qed.

(* --------------------------------------------------------------------- *)
(** ** The latency probe *)
(* --------------------------------------------------------------------- *)

Section NumFacts.
#[local] Open Scope Q_scope.

Lemma float_sqrt_nonneg x : 0 <= float_sqrt x.
Proof.
  unfold float_sqrt, Qle. simpl. rewrite Z.mul_1_r. apply Z.sqrt_nonneg.
Qed.

(** [float_sqrt] is a square root rounded down: its square does not exceed
    a non-negative argument. *)
Lemma float_sqrt_square_le x : 0 <= x -> float_sqrt x * float_sqrt x <= x.
Proof.
  destruct x as [n d]. unfold float_sqrt, Qle, Qmult. simpl. intros Hn.
  rewrite Z.mul_1_r in Hn.
  pose proof (Z.sqrt_spec (n * Z.pos d * 2 ^ 104)) as Hspec.
  assert (H0 : (0 <= n * Z.pos d * 2 ^ 104)%Z) by nia.
  specialize (Hspec H0). destruct Hspec as [Hle _].
  set (r := Z.sqrt (n * Z.pos d * 2 ^ 104)) in *.
  rewrite !Pos2Z.inj_mul.
  change (Z.pos (2 ^ 52)) with (2 ^ 52)%Z.
  replace (n * (Z.pos d * 2 ^ 52 * (Z.pos d * 2 ^ 52)))%Z
    with (n * Z.pos d * 2 ^ 104 * Z.pos d)%Z by (change (2 ^ 104)%Z with (2 ^ 52 * 2 ^ 52)%Z; ring).
  apply Z.mul_le_mono_nonneg_r; lia.
Qed.

Lemma latency_summary_eq latencies :
  latency_summary latencies =
    match latencies with
    | [] => Returned (None, None)
    | _ => Returned (Some (mean latencies),
                     Some (if (1 <? length latencies)%nat
                           then sample_stdev latencies else 0))
    end.
Proof. destruct latencies as [|x [|y l]]; reflexivity. Qed.

Lemma status_accepted_iff status :
  status_accepted status = true <->
  status = 200%Z \/ status = 302%Z \/ status = 401%Z \/ status = 403%Z.
Proof.
  unfold status_accepted, ACCEPTED_STATUS. simpl.
  rewrite !orb_true_iff, !Z.eqb_eq. intuition discriminate.
Qed.

Lemma length_samples evs : length (samples evs) = length (List.filter counts evs).
Proof.
  unfold samples. induction evs as [|ev evs IH]; [reflexivity|].
  simpl. rewrite length_app, IH.
  destruct ev as [d r|u a t0 t1 r|u a tm r]; simpl; try reflexivity.
  destruct r as [st|e]; simpl; [|reflexivity].
  destruct (status_accepted st); reflexivity.
Qed.

End NumFacts.

Section Probe.
Context {S : Type} (net : Network S).
#[local] Open Scope Q_scope.

Lemma measure_latency_log t url num_pings (w : world S) :
  let evs := logged_between w (snd (measure_latency net t url num_pings w)) in
  trace (snd (measure_latency net t url num_pings w)) = trace w ++ evs /\
  length evs = Z.to_nat num_pings /\
  Forall (head_of url (user_agent t)) evs /\
  fst (measure_latency net t url num_pings w) = latency_summary (samples evs).
Proof.
  unfold measure_latency.
  destruct (ping_loop_log net t url (Z.to_nat num_pings) [] w) as (evs & Htr & Hlen & Hall & Hfst).
  destruct (ping_loop net t url (Z.to_nat num_pings) [] w) as [latencies w1].
  simpl in *. rewrite (logged_between_app _ _ _ Htr). subst latencies. auto.
Qed.

(** C6. The probe makes [num_pings] HEAD requests, and a request yields a
    sample exactly when it is answered with status 200, 302, 401 or 403; a
    request that raises or is answered otherwise is skipped and the loop
    goes on.  With [k + 1] counting requests the probe returns the mean of
    those [k + 1] samples and their jitter (so 3 samples out of 5 attempts
    give a pair over the 3); with none it returns [(None, None)].  It never
    raises. *)
Theorem measure_latency_counts_accepted (t : CDNTester) (url : string) (num_pings : Z)
  (w : world S) :
  let evs := logged_between w (snd (measure_latency net t url num_pings w)) in
  length evs = Z.to_nat num_pings /\
  Forall (head_of url (user_agent t)) evs /\
  (forall status, status_accepted status = true <->
      status = 200%Z \/ status = 302%Z \/ status = 401%Z \/ status = 403%Z) /\
  length (samples evs) = length (List.filter counts evs) /\
  (length (List.filter counts evs) = 0%nat ->
      fst (measure_latency net t url num_pings w) = Returned (None, None)) /\
  (forall k, length (List.filter counts evs) = Datatypes.S k ->
      fst (measure_latency net t url num_pings w) =
        Returned (Some (mean (samples evs)),
                  Some (if (1 <? Datatypes.S k)%nat then sample_stdev (samples evs) else 0))).
Proof.
  destruct (measure_latency_log t url num_pings w) as (Htr & Hlen & Hall & Hfst).
  cbv zeta. split; [exact Hlen|]. split; [exact Hall|].
  split; [exact status_accepted_iff|]. split; [apply length_samples|].
  rewrite Hfst, latency_summary_eq, <- length_samples. split.
  - intros H0. now destruct (samples _).
  - intros k Hk. rewrite <- Hk. now destruct (samples _).
Qed.

(** C7. When the probe returns a pair, the jitter is not negative; it is 0
    when exactly one sample was obtained, and the sample standard deviation
    of the samples when there are several. *)
Theorem jitter_nonneg_stdev (t : CDNTester) (url : string) (num_pings : Z) (w : world S)
  (avg jitter : Q) :
  fst (measure_latency net t url num_pings w) = Returned (Some avg, Some jitter) ->
  let latencies := samples (logged_between w (snd (measure_latency net t url num_pings w))) in
  0 <= jitter /\
  (length latencies = 1%nat -> jitter = 0) /\
  ((1 < length latencies)%nat -> jitter = sample_stdev latencies).
Proof.
  destruct (measure_latency_log t url num_pings w) as (_ & _ & _ & Hfst).
  rewrite Hfst, latency_summary_eq. cbv zeta.
  destruct (samples _) as [|x l] eqn:El; [discriminate|].
  intros [= <- <-]. split; [|split].
  - destruct l; [apply Qle_refl | apply float_sqrt_nonneg].
  - intros H1. destruct l; [reflexivity | discriminate].
  - intros Hlt. destruct l; [simpl in Hlt; lia | reflexivity].
Qed.

End Probe.

Lemma measure_latency_counts_accepted_witness :
  fst (measure_latency (Examples.scripted_net Examples.stream_response) Examples.tester
         "http://cdn.example/live/alice/secret/101.ts" 5 (Examples.start_of_run 0%nat))
  = Returned (Some (mean [Log.latency_ms 0 20000000; Log.latency_ms 10520000000 10544000000;
                          Log.latency_ms 21044000000 21066000000]),
              Some (sample_stdev [Log.latency_ms 0 20000000;
                                  Log.latency_ms 10520000000 10544000000;
                                  Log.latency_ms 21044000000 21066000000])) /\
  fst (measure_latency Examples.dead_net Examples.tester
         "http://cdn.example/live/alice/secret/101.ts" 5 (Examples.start_of_run ()))
  = Returned (None, None).
Proof.
  split.
  - apply (proj2 (proj2 (proj2 (proj2 (proj2 (measure_latency_counts_accepted
             (Examples.scripted_net Examples.stream_response) Examples.tester
             "http://cdn.example/live/alice/secret/101.ts" 5
             (Examples.start_of_run 0%nat)))))) 2%nat).
    reflexivity.
  - apply (proj1 (proj2 (proj2 (proj2 (proj2 (measure_latency_counts_accepted
             Examples.dead_net Examples.tester
             "http://cdn.example/live/alice/secret/101.ts" 5
             (Examples.start_of_run ()))))))).
    reflexivity.
Defined.

Lemma jitter_nonneg_stdev_witness :
  let net := Examples.scripted_net Examples.stream_response in
  let url := "http://cdn.example/live/alice/secret/101.ts" in
  let w := Examples.start_of_run 0%nat in
  let three := [Log.latency_ms 0 20000000; Log.latency_ms 10520000000 10544000000;
                Log.latency_ms 21044000000 21066000000] in
  let jitter_of_one :=
    match fst (measure_latency net Examples.tester url 2 w) with
    | Returned (_, Some jitter) => jitter
    | _ => 1%Q
    end in
  (0 <= sample_stdev three)%Q /\
  sample_stdev three =
    sample_stdev (samples (logged_between w (snd (measure_latency net Examples.tester url 5 w)))) /\
  jitter_of_one = 0%Q.
Proof.
  intros net url w three jitter_of_one. split; [|split].
  - apply (jitter_nonneg_stdev net Examples.tester url 5 w (mean three) (sample_stdev three)).
    reflexivity.
  - apply (jitter_nonneg_stdev net Examples.tester url 5 w (mean three) (sample_stdev three)).
    + reflexivity.
    + vm_compute. lia.
  - apply (jitter_nonneg_stdev net Examples.tester url 2 w
             (mean [Log.latency_ms 0 20000000]) jitter_of_one).
    + reflexivity.
    + reflexivity.
Defined.

(* --------------------------------------------------------------------- *)
(** ** The throughput meter *)
(* --------------------------------------------------------------------- *)

Section Throughput.
Context {S : Type} (net : Network S).
#[local] Open Scope Q_scope.

Lemma perf_counter_mono (w w' : world S) :
  (clock_ns w <= clock_ns w')%N -> perf_counter w <= perf_counter w'.
Proof. intros H. unfold perf_counter, Qle. simpl. lia. Qed.

Lemma session_get_clock url ua timeout (w : world S) :
  (clock_ns w <= clock_ns (snd (session_get net url ua timeout w)))%N.
Proof.
  destruct (session_get_world net url ua timeout w) as (r & dt & s & _ & ->). simpl. lia.
Qed.

Lemma read_chunks_clock start duration body ending bytes (w : world S) :
  (clock_ns w <= clock_ns (snd (read_chunks start duration body ending bytes w)))%N.
Proof.
  revert bytes w. induction body as [|[len dt] body IH]; intros bytes w; simpl.
  - lia.
  - destruct (Qlt_bool _ _); simpl; [lia|].
    etransitivity; [|apply IH]. simpl. lia.
Qed.

Lemma read_chunks_trace start duration body ending bytes (w : world S) :
  trace (snd (read_chunks start duration body ending bytes w)) = trace w.
Proof.
  revert bytes w. induction body as [|[len dt] body IH]; intros bytes w; simpl.
  - reflexivity.
  - destruct (Qlt_bool _ _); simpl; [reflexivity|]. now rewrite IH.
Qed.

Lemma mbps_eq bytes seconds :
  mbps bytes seconds =
    if Qeq_bool (seconds * 1000000) 0 then Raised ZeroDivisionError
    else Returned (inject_Z (Z.of_N bytes * 8) / (seconds * 1000000)).
Proof. reflexivity. Qed.

Lemma mbps_nonneg bytes seconds v :
  0 <= seconds -> mbps bytes seconds = Returned v -> 0 <= v.
Proof.
  intros Hs. rewrite mbps_eq. destruct (Qeq_bool _ _); [discriminate|].
  intros [= <-]. unfold Qdiv. apply Qmult_le_0_compat.
  - unfold Qle. simpl. lia.
  - apply Qinv_le_0_compat. apply Qmult_le_0_compat; [exact Hs | discriminate].
Qed.

Lemma mbps_positive_duration bytes (duration : Z) :
  (0 < duration)%Z ->
  mbps bytes (inject_Z duration) =
    Returned (inject_Z (Z.of_N bytes * 8) / (inject_Z duration * 1000000)).
Proof.
  intros Hd. rewrite mbps_eq.
  destruct (Qeq_bool (inject_Z duration * 1000000) 0) eqn:E; [|reflexivity].
  apply Qeq_bool_eq in E. unfold Qeq in E. simpl in E. lia.
Qed.

Lemma throughput_attempt_nonneg t url duration (w : world S) v :
  fst (fst (throughput_attempt net t url duration w)) = Returned (Some v) -> 0 <= v.
Proof.
  unfold throughput_attempt.
  pose proof (session_get_clock url (Some (user_agent t)) (duration + 5)%Z w) as Hget.
  destruct (session_get net url (Some (user_agent t)) (duration + 5)%Z w) as [[resp|e] w1];
    simpl in *; [|discriminate].
  destruct (status resp =? 200)%Z; simpl; [|discriminate].
  pose proof (read_chunks_clock (perf_counter w) duration (chunks resp) (ending resp) 0%N w1)
    as Hread.
  destruct (read_chunks _ _ _ _ _ w1) as [[[e|] bytes] w2]; simpl in *; [discriminate|].
  destruct (mbps bytes (perf_counter w2 - perf_counter w)) as [x|e] eqn:E; simpl;
    [|discriminate].
  intros [= <-]. eapply mbps_nonneg; [|exact E].
  apply (Qplus_le_r _ _ (perf_counter w)). ring_simplify.
  apply perf_counter_mono. lia.
Qed.

(** C5. For a positive configured [duration]: when the body of the request
    ends in a timeout after bytes were received, [measure_throughput]
    returns [bytes_downloaded * 8 / (duration * 1_000_000)]; when it fails
    in any other way (a timeout before the first byte and an exception
    before the headers included) or the status is not 200, it returns
    [None].  It never raises, and a value it returns is a rational number
    that is not negative. *)
Theorem measure_throughput_partial_on_timeout (t : CDNTester) (url : string) (duration : Z)
  (w : world S) :
  (0 < duration)%Z ->
  let attempt := fst (fst (throughput_attempt net t url duration w)) in
  let bytes_downloaded := snd (fst (throughput_attempt net t url duration w)) in
  (attempt = Raised TimeoutError -> (0 < bytes_downloaded)%N ->
     fst (measure_throughput net t url duration w) =
       Returned (Some (inject_Z (Z.of_N bytes_downloaded * 8) / (inject_Z duration * 1000000)))) /\
  (forall e, attempt = Raised e -> e <> TimeoutError \/ bytes_downloaded = 0%N ->
     fst (measure_throughput net t url duration w) = Returned None) /\
  (forall e, fst (session_get net url (Some (user_agent t)) (duration + 5) w) = Raised e ->
     fst (measure_throughput net t url duration w) = Returned None) /\
  (forall resp, fst (session_get net url (Some (user_agent t)) (duration + 5) w) = Returned resp ->
     status resp <> 200%Z ->
     fst (measure_throughput net t url duration w) = Returned None) /\
  (exists throughput, fst (measure_throughput net t url duration w) = Returned throughput /\
     forall v, throughput = Some v -> 0 <= v).
Proof.
  intros Hd. cbv zeta.
  pose proof (throughput_attempt_nonneg t url duration w) as Hnonneg.
  assert (Hget : forall r, fst (session_get net url (Some (user_agent t)) (duration + 5) w) = r ->
            match r with
            | Raised e => fst (throughput_attempt net t url duration w) = (Raised e, 0%N)
            | Returned resp => status resp <> 200%Z ->
                fst (throughput_attempt net t url duration w) = (Returned None, 0%N)
            end).
  { intros r <-. unfold throughput_attempt.
    destruct (session_get net url (Some (user_agent t)) (duration + 5)%Z w) as [[resp|e] w1];
      simpl; [|reflexivity].
    intros Hst. apply Z.eqb_neq in Hst. now rewrite Hst. }
  unfold measure_throughput.
  destruct (throughput_attempt net t url duration w) as [[r bytes] w1]. simpl in *.
  split; [|split; [|split; [|split]]].
  - intros -> Hb. apply N.ltb_lt in Hb. rewrite Hb. simpl.
    now rewrite mbps_positive_duration.
  - intros e -> [Hne|Hb].
    + destruct e; try reflexivity. contradiction.
    + subst bytes. now destruct e.
  - intros e He. specialize (Hget _ He). simpl in Hget. injection Hget as -> ->.
    now destruct e.
  - intros resp Hresp Hst. specialize (Hget _ Hresp Hst). now injection Hget as -> ->.
  - destruct r as [v|e]; simpl.
    + exists v. split; [reflexivity|]. intros x ->. now apply Hnonneg.
    + destruct e; simpl; try (exists None; split; [reflexivity | discriminate]).
      destruct (0 <? bytes)%N; simpl; [|exists None; split; [reflexivity | discriminate]].
      rewrite mbps_positive_duration by exact Hd. simpl.
      eexists. split; [reflexivity|]. intros x [= <-].
      unfold Qdiv. apply Qmult_le_0_compat.
      * unfold Qle. simpl. lia.
      * apply Qinv_le_0_compat. unfold Qle. simpl. lia.
Qed.

End Throughput.

Lemma measure_throughput_partial_on_timeout_witness :
  fst (measure_throughput (Examples.scripted_net Examples.stalling_response) Examples.tester
         "http://cdn.example/live/alice/secret/101.ts" 5 (Examples.start_of_run 0%nat))
  = Returned (Some (inject_Z (Z.of_N 12288 * 8) / (inject_Z 5 * 1000000))%Q) /\
  fst (measure_throughput Examples.dead_net Examples.tester
         "http://cdn.example/live/alice/secret/101.ts" 5 (Examples.start_of_run ()))
  = Returned None /\
  fst (measure_throughput Examples.unavailable_net Examples.tester
         "http://cdn.example/live/alice/secret/101.ts" 5 (Examples.start_of_run ()))
  = Returned None.
Proof.
  split; [|split].
  - apply (measure_throughput_partial_on_timeout
             (Examples.scripted_net Examples.stalling_response) Examples.tester
             "http://cdn.example/live/alice/secret/101.ts" 5 (Examples.start_of_run 0%nat)).
    + reflexivity.
    + reflexivity.
    + reflexivity.
  - apply (proj1 (proj2 (measure_throughput_partial_on_timeout
             Examples.dead_net Examples.tester
             "http://cdn.example/live/alice/secret/101.ts" 5 (Examples.start_of_run ())
             eq_refl)) ClientError).
    + reflexivity.
    + left. discriminate.
  - apply (proj1 (proj2 (proj2 (proj2 (measure_throughput_partial_on_timeout
             Examples.unavailable_net Examples.tester
             "http://cdn.example/live/alice/secret/101.ts" 5 (Examples.start_of_run ())
             eq_refl))))
             {| status := 503; json := Raised ValueError; chunks := []; ending := None |}).
    + reflexivity.
    + discriminate.
Defined.

(* --------------------------------------------------------------------- *)
(** ** The orchestrator *)
(* --------------------------------------------------------------------- *)

Section Orchestrator.
Context {S : Type} (net : Network S).
#[local] Open Scope Q_scope.

Lemma measure_latency_shape t url num_pings (w : world S) :
  fst (measure_latency net t url num_pings w) = Returned (None, None) \/
  exists avg jitter, fst (measure_latency net t url num_pings w) = Returned (Some avg, Some jitter).
Proof.
  destruct (measure_latency_log net t url num_pings w) as (_ & _ & _ & ->).
  rewrite latency_summary_eq. destruct (samples _); eauto.
Qed.

Lemma measure_latency_emits t url num_pings (w : world S) :
  emits (fun ev => is_head ev /\ sent_by t ev) w (snd (measure_latency net t url num_pings w)).
Proof.
  destruct (measure_latency_log net t url num_pings w) as (Htr & _ & Hall & _).
  eexists. split; [exact Htr|].
  eapply Forall_impl; [exact Hall|].
  intros [d r|u a t0 t1 r|u a tm r]; simpl; try contradiction.
  intros [_ ->]. split; [exact I|]. now intros ua [= <-].
Qed.

Lemma measure_throughput_world t url duration (w : world S) :
  snd (measure_throughput net t url duration w) = snd (throughput_attempt net t url duration w).
Proof.
  unfold measure_throughput.
  destruct (throughput_attempt net t url duration w) as [[[v|e] bytes] w1]; simpl;
    [reflexivity|].
  destruct e; try reflexivity. now destruct (0 <? bytes)%N.
Qed.

Lemma measure_throughput_emits t url duration (w : world S) :
  emits (sent_by t) w (snd (measure_throughput net t url duration w)).
Proof.
  rewrite measure_throughput_world. unfold throughput_attempt.
  destruct (session_get_world net url (Some (user_agent t)) (duration + 5)%Z w)
    as (r & dt & s & _ & ->).
  set (w1 := World _ s _).
  assert (Hw1 : emits (sent_by t) w w1).
  { eapply emits_one; [reflexivity|]. now intros ua [= <-]. }
  destruct r as [resp|e]; simpl; [|exact Hw1].
  destruct (status resp =? 200)%Z; simpl; [|exact Hw1].
  pose proof (read_chunks_trace (perf_counter w) duration (chunks resp) (ending resp) 0%N w1)
    as Htr.
  destruct (read_chunks _ _ _ _ _ w1) as [[[e|] bytes] w2]; simpl in *;
    (eapply emits_trans; [exact Hw1 | now apply emits_same_trace]).
Qed.

Lemma measure_throughput_returns t url duration (w : world S) :
  (0 < duration)%Z ->
  exists throughput, fst (measure_throughput net t url duration w) = Returned throughput.
Proof.
  intros Hd. unfold measure_throughput.
  destruct (throughput_attempt net t url duration w) as [[[v|e] bytes] w1]; simpl; eauto.
  destruct e; eauto.
  destruct (0 <? bytes)%N; simpl; eauto.
  rewrite mbps_positive_duration by exact Hd. simpl. eauto.
Qed.

Lemma resolve_dns_emits P domain (w : world S) :
  (forall r, P (EvResolve domain r)) ->
  emits P w (snd (resolve_dns net domain w)).
Proof.
  intros HP. rewrite resolve_dns_eq. simpl.
  destruct (getaddrinfo_world net domain w) as (r & dt & s & _ & ->).
  eapply emits_one; [reflexivity | apply HP].
Qed.

Lemma get_asn_info_emits t ip (w : world S) :
  emits (sent_by t) w (snd (get_asn_info net ip w)).
Proof.
  rewrite get_asn_info_eq. simpl.
  destruct (session_get_world net (ipapi_url ip) None 5 w) as (r & dt & s & _ & ->).
  eapply emits_one; [reflexivity|]. intros ua. discriminate.
Qed.

(** What one iteration over a channel does, by the outcome of its probe. *)
Lemma test_channel_eq t dns ip asn geo hosting (ch : channel) (w : world S) :
  let stream_id := dict_get ch "stream_id" PyNone in
  let name := dict_get ch "name" (PyStr "Unknown") in
  let url := stream_url t dns stream_id in
  let probe := measure_latency net t url 5 w in
  let meter := measure_throughput net t url 5 (snd probe) in
  test_channel net t dns ip asn geo hosting ch w =
    match fst probe with
    | Returned (None, _) =>
        (Returned (connection_failed_result dns ip asn geo hosting stream_id name
                     (now_isoformat net (snd probe))), snd probe)
    | Returned (Some avg, jitter) =>
        match fst meter with
        | Returned throughput =>
            (jitter_rounded ← py_round_opt jitter 2;
             mret (measured_result dns ip asn geo hosting stream_id name
                     (now_isoformat net (snd meter)) (py_round avg 2) jitter_rounded
                     throughput),
             snd meter)
        | Raised e => (Raised e, snd meter)
        end
    | Raised e => (Raised e, snd probe)
    end.
Proof.
  cbv zeta. unfold test_channel, mbind, io_bind, mret, io_ret, datetime_now, pure_io.
  destruct (measure_latency net t _ 5 w) as [[[[avg|] jitter]|e] w1]; simpl; try reflexivity.
  destruct (measure_throughput net t _ 5 w1) as [[thr|e] w2]; simpl; [|reflexivity].
  destruct jitter; reflexivity.
Qed.

Lemma connection_failed_record_of dns ip asn geo hosting (ch : channel) now :
  record_of dns ch (connection_failed_result dns ip asn geo hosting
                      (dict_get ch "stream_id" PyNone) (dict_get ch "name" (PyStr "Unknown")) now).
Proof.
  repeat split; try reflexivity.
  - now left.
  - left. split; [reflexivity | discriminate].
Qed.

Lemma measured_record_of dns ip asn geo hosting (ch : channel) now avg jitter thr :
  record_of dns ch (measured_result dns ip asn geo hosting
                      (dict_get ch "stream_id" PyNone) (dict_get ch "name" (PyStr "Unknown"))
                      now avg jitter thr).
Proof.
  repeat split; try reflexivity.
  - now left.
  - right. split; reflexivity.
Qed.

Lemma dns_failure_record_of dns now (ch : channel) :
  record_of dns ch (dns_failure_result dns now ch) /\
  failure_marked (dns_failure_result dns now ch) /\
  ip_address (dns_failure_result dns now ch) = "N/A".
Proof.
  split; [|split; [|reflexivity]].
  - repeat split; try reflexivity.
    + unfold dns_failure_result, item_id, dict_get. simpl.
      destruct (ch !! "stream_id"); simpl; [now left | now right].
    + left. split; [reflexivity | discriminate].
  - repeat split; discriminate.
Qed.

Lemma test_channel_returns t dns ip asn geo hosting (ch : channel) (w : world S) :
  exists r,
    fst (test_channel net t dns ip asn geo hosting ch w) = Returned r /\
    record_of dns ch r /\
    emits (sent_by t) w (snd (test_channel net t dns ip asn geo hosting ch w)).
Proof.
  rewrite test_channel_eq. cbv zeta.
  set (url := stream_url t dns _).
  pose proof (measure_latency_emits t url 5 w) as Hprobe.
  apply (emits_weaken _ (sent_by t)) in Hprobe; [|tauto].
  destruct (measure_latency_shape t url 5 w) as [->|(avg & jitter & ->)].
  - eexists. simpl. split; [reflexivity|]. split; [|exact Hprobe].
    apply connection_failed_record_of.
  - pose proof (measure_throughput_emits t url 5 (snd (measure_latency net t url 5 w))) as Hmeter.
    destruct (measure_throughput_returns t url 5 (snd (measure_latency net t url 5 w)))
      as [thr ->]; [reflexivity|].
    eexists. simpl. split; [reflexivity|]. split.
    + apply measured_record_of.
    + eapply emits_trans; eauto.
Qed.

Lemma channel_loop_returns t dns ip asn geo hosting (channels : list channel) results
  (w : world S) :
  exists rs,
    fst (channel_loop net t dns ip asn geo hosting channels results w)
      = Returned (results ++ rs) /\
    Forall2 (record_of dns) channels rs /\
    emits (sent_by t) w (snd (channel_loop net t dns ip asn geo hosting channels results w)).
Proof.
  revert results w. induction channels as [|ch channels IH]; intros results w.
  - exists []. simpl. rewrite app_nil_r. repeat split; [constructor | apply emits_refl].
  - simpl. unfold mbind, io_bind.
    destruct (test_channel_returns t dns ip asn geo hosting ch w) as (r & Hr & Hrec & Hem).
    destruct (test_channel net t dns ip asn geo hosting ch w) as [o w1]. simpl in *. subst o.
    destruct (IH (results ++ [r]) w1) as (rs & Hrs & Hall & Hem').
    exists (r :: rs). rewrite Hrs, <- app_assoc. simpl. repeat split.
    + now constructor.
    + eapply emits_trans; eauto.
Qed.

Lemma test_endpoint_eq t dns (channels : list channel) (w : world S) :
  let lookup := resolve_dns net (endpoint_domain dns) w in
  test_endpoint net t dns channels w =
    match fst lookup with
    | Returned ip_address =>
        if address_truthy ip_address then
          let info := get_asn_info net (default "" ip_address) (snd lookup) in
          match fst info with
          | Returned (asn, geo, hosting) =>
              channel_loop net t dns (default "" ip_address) asn geo hosting channels []
                (snd info)
          | Raised e => (Raised e, snd info)
          end
        else
          (Returned (map (dns_failure_result dns (now_isoformat net (snd lookup))) channels),
           snd lookup)
    | Raised e => (Raised e, snd lookup)
    end.
Proof.
  cbv zeta. unfold test_endpoint, mbind, io_bind, mret, io_ret, datetime_now.
  destruct (resolve_dns net (endpoint_domain dns) w) as [[ip_address|e] w1]; simpl;
    [|reflexivity].
  destruct (address_truthy ip_address); simpl; [|reflexivity].
  destruct (get_asn_info net (default "" ip_address) w1) as [[[[asn geo] hosting]|e] w2];
    reflexivity.
Qed.

Lemma dns_failure_results dns now (channels : list channel) :
  Forall2 (record_of dns) channels (map (dns_failure_result dns now) channels) /\
  Forall (fun r => failure_marked r /\ ip_address r = "N/A")
         (map (dns_failure_result dns now) channels).
Proof.
  induction channels as [|ch channels [IH1 IH2]]; simpl; split; constructor; auto;
    apply dns_failure_record_of.
Qed.

Lemma test_endpoint_returns t dns (channels : list channel) (w : world S) :
  exists rs,
    fst (test_endpoint net t dns channels w) = Returned rs /\
    Forall2 (record_of dns) channels rs /\
    emits (sent_by t) w (snd (test_endpoint net t dns channels w)).
Proof.
  rewrite test_endpoint_eq. cbv zeta.
  pose proof (resolve_dns_emits (sent_by t) (endpoint_domain dns) w) as Hlookup.
  destruct (resolve_dns_returns net (endpoint_domain dns) w) as [ip_address Hres].
  rewrite Hres in *. simpl in *.
  assert (Hem : emits (sent_by t) w (snd (getaddrinfo net (endpoint_domain dns) w))).
  { apply Hlookup. intros r ua. discriminate. }
  destruct (address_truthy ip_address).
  - set (w1 := snd (getaddrinfo net (endpoint_domain dns) w)) in *.
    pose proof (get_asn_info_emits t (default "" ip_address) w1) as Hinfo.
    destruct (get_asn_info_returns net (default "" ip_address) w1) as [[[asn geo] hosting] Hr].
    rewrite Hr in *. simpl in *.
    destruct (channel_loop_returns t dns (default "" ip_address) asn geo hosting channels []
                (snd (session_get net (ipapi_url (default "" ip_address)) None 5 w1)))
      as (rs & Hrs & Hall & Hem').
    exists rs. split; [exact Hrs|]. split; [exact Hall|].
    eapply emits_trans; [exact Hem|]. eapply emits_trans; eauto.
  - eexists. split; [reflexivity|]. split; [apply dns_failure_results | exact Hem].
Qed.

Lemma endpoint_loop_returns t (dns_entries : list string) (channels : list channel)
  all_results (w : world S) :
  exists rs,
    fst (endpoint_loop net t dns_entries channels all_results w)
      = Returned (all_results ++ rs) /\
    Forall2 (fun p r => record_of (fst p) (snd p) r) (list_prod dns_entries channels) rs /\
    emits (sent_by t) w (snd (endpoint_loop net t dns_entries channels all_results w)).
Proof.
  revert all_results w. induction dns_entries as [|dns rest IH]; intros all_results w.
  - exists []. simpl. rewrite app_nil_r. repeat split; [constructor | apply emits_refl].
  - simpl. unfold mbind, io_bind.
    destruct (test_endpoint_returns t dns channels w) as (rs1 & Hrs1 & Hall1 & Hem1).
    destruct (test_endpoint net t dns channels w) as [o w1]. simpl in *. subst o.
    match goal with |- context [endpoint_loop net t rest channels ?acc ?w'] =>
      destruct (IH acc w') as (rs2 & Hrs2 & Hall2 & Hem2) end.
    exists (rs1 ++ rs2). rewrite Hrs2, <- app_assoc. repeat split.
    + apply Forall2_app; [|exact Hall2]. now apply Forall2_fmap_l.
    + eapply emits_trans; [exact Hem1|]. exact Hem2.
Qed.

Lemma run_tests_returns t (dns_entries : list string) (channels : list channel)
  (w : world S) :
  exists rs,
    fst (run_tests net t dns_entries channels w) = Returned rs /\
    Forall2 (fun p r => record_of (fst p) (snd p) r) (list_prod dns_entries channels) rs /\
    emits (sent_by t) w (snd (run_tests net t dns_entries channels w)).
Proof. apply (endpoint_loop_returns t dns_entries channels [] w). Qed.

End Orchestrator.

(* --------------------------------------------------------------------- *)
(** ** One record per endpoint and item *)
(* --------------------------------------------------------------------- *)

Section Coverage.
Context {S : Type} (net : Network S).

Lemma map_is_fmap {A B} (f : A -> B) (l : list A) : map f l = f <$> l.
Proof. induction l as [|x l IH]; [reflexivity|]. cbn. now rewrite IH. Qed.

Lemma pairing_of_records (pairs : list (string * channel)) (rs : list TestResult) :
  Forall (fun p => is_Some (snd p !! "stream_id")) pairs ->
  Forall2 (fun p r => record_of (fst p) (snd p) r) pairs rs ->
  map pairing rs = map (fun p => (fst p, item_id (snd p))) pairs.
Proof.
  intros Hid Hall. induction Hall as [|p r pairs rs Hrec _ IH]; [reflexivity|].
  apply Forall_cons in Hid as [Hp Hid]. simpl. rewrite (IH Hid). f_equal.
  destruct Hrec as (Hdns & _ & [Hcid|[Hnone _]] & _).
  - unfold pairing. now rewrite Hdns, Hcid.
  - rewrite Hnone in Hp. now destruct Hp.
Qed.

Lemma list_prod_have_id (dns_entries : list string) (channels : list channel) :
  Forall (fun ch => is_Some (ch !! "stream_id")) channels ->
  Forall (fun p => is_Some (snd p !! "stream_id")) (list_prod dns_entries channels).
Proof.
  rewrite !Forall_forall. intros H [dns ch] Hin.
  apply list_elem_of_In, in_prod_iff in Hin as [_ Hin].
  apply (H ch). now apply list_elem_of_In.
Qed.

Lemma NoDup_list_prod_keys {A B K} (key : B -> K) (xs : list A) (ys : list B) :
  NoDup xs -> NoDup (map key ys) ->
  NoDup (map (fun p => (fst p, key (snd p))) (list_prod xs ys)).
Proof.
  intros Hxs Hys. induction Hxs as [|x xs Hx Hxs IH]; simpl; [constructor|].
  rewrite map_app, map_map. simpl. apply NoDup_app. split; [|split; [|exact IH]].
  - rewrite map_is_fmap in Hys. rewrite <- (map_map key (pair x)), !map_is_fmap.
    apply NoDup_fmap_2; [|exact Hys]. now intros a b [= ->].
  - intros p Hp Hp'. rewrite map_is_fmap in Hp. rewrite map_is_fmap in Hp'.
    apply list_elem_of_fmap in Hp as (y & -> & _).
    apply list_elem_of_fmap in Hp' as ([x' y'] & [= <- _] & Hin).
    apply list_elem_of_In, in_prod_iff in Hin as [Hin _].
    apply Hx. now apply list_elem_of_In.
Qed.

(** C1, amended. For all endpoint and item lists a run returns exactly
    |E| x |I| records: in order, one record for each position of the
    product of the two lists, carrying that endpoint and that item's name
    and id.  An endpoint that does not resolve still gets one failure-marked
    record per item.  The (endpoint, item id) pairings of the records are
    pairwise distinct when no endpoint is listed twice and the items carry
    pairwise distinct stream ids. *)
Theorem run_tests_one_record_per_pair (t : CDNTester) (dns_entries : list string)
  (channels : list channel) (w : world S) :
  exists rs w',
    run_tests net t dns_entries channels w = (Returned rs, w') /\
    length rs = (length dns_entries * length channels)%nat /\
    Forall2 (fun p r => record_of (fst p) (snd p) r) (list_prod dns_entries channels) rs /\
    (forall dns w0 resolved,
        fst (resolve_dns net (endpoint_domain dns) w0) = Returned resolved ->
        address_truthy resolved = false ->
        exists rs0,
          fst (test_endpoint net t dns channels w0) = Returned rs0 /\
          length rs0 = length channels /\
          Forall (fun r => failure_marked r /\ ip_address r = "N/A") rs0) /\
    (NoDup dns_entries ->
     Forall (fun ch => is_Some (ch !! "stream_id")) channels ->
     NoDup (map item_id channels) ->
     NoDup (map pairing rs)).
Proof.
  destruct (run_tests_returns net t dns_entries channels w) as (rs & Hrs & Hall & _).
  exists rs, (snd (run_tests net t dns_entries channels w)).
  split; [now rewrite <- Hrs; destruct (run_tests net t dns_entries channels w)|].
  split; [|split; [exact Hall|split]].
  - rewrite <- (Forall2_length _ _ _ Hall). apply length_prod.
  - intros dns w0 resolved Hres Hfalsy. rewrite test_endpoint_eq. cbv zeta.
    rewrite Hres, Hfalsy. eexists. split; [reflexivity|]. split.
    + apply length_map.
    + apply dns_failure_results.
  - intros HE Hid HI.
    rewrite (pairing_of_records _ _ (list_prod_have_id dns_entries channels Hid) Hall).
    now apply NoDup_list_prod_keys.
Qed.

(** C9. Every record of a run has success indicator 0 together with an
    error message, or success indicator 100 together with none. *)
Theorem success_indicator_binary (t : CDNTester) (dns_entries : list string)
  (channels : list channel) (w : world S) :
  exists rs w',
    run_tests net t dns_entries channels w = (Returned rs, w') /\
    Forall binary_indicator rs /\
    Forall (fun r => success_rate r = 100%Q <-> error_message r = None) rs.
Proof.
  destruct (run_tests_returns net t dns_entries channels w) as (rs & Hrs & Hall & _).
  exists rs, (snd (run_tests net t dns_entries channels w)).
  split; [now rewrite <- Hrs; destruct (run_tests net t dns_entries channels w)|].
  assert (Hbin : Forall binary_indicator rs).
  { clear Hrs. induction Hall as [|p r pairs rs Hrec _ IH]; constructor; [|exact IH].
    apply Hrec. }
  split; [exact Hbin|].
  eapply Forall_impl; [exact Hbin|].
  intros r [[H0 Hmsg]|[H100 Hmsg]]; split; intros H; congruence.
Qed.

End Coverage.

(** C1, as stated, fails when an endpoint is listed twice: the two passes
    over it give records with the same (endpoint, item) pairing. *)
Lemma repeated_endpoint_repeats_pairing :
  exists rs,
    fst (run_tests Examples.dead_net Examples.tester
           ["http://cdn.example"; "http://cdn.example"] [Examples.channel_1]
           (Examples.start_of_run ())) = Returned rs /\
    length rs = 2%nat /\
    ~ NoDup (map pairing rs).
Proof.
  eexists. split; [vm_compute; reflexivity|]. split; [reflexivity|].
  intros Hnd. apply NoDup_cons in Hnd as [Hnotin _]. apply Hnotin. constructor.
Qed.

Lemma run_tests_one_record_per_pair_witness :
  exists rs w',
    run_tests Examples.partial_net Examples.tester
      ["http://bad.example"; "https://good.example:8080/p"]
      [Examples.channel_1; Examples.channel_2] (Examples.start_of_run ()) = (Returned rs, w') /\
    length rs = 4%nat /\
    NoDup (map pairing rs).
Proof.
  destruct (run_tests_one_record_per_pair Examples.partial_net Examples.tester
              ["http://bad.example"; "https://good.example:8080/p"]
              [Examples.channel_1; Examples.channel_2] (Examples.start_of_run ()))
    as (rs & w' & Hrun & Hlen & _ & _ & Hnodup).
  exists rs, w'. split; [exact Hrun|]. split; [exact Hlen|].
  apply Hnodup.
  - repeat constructor; intros Hin; repeat (apply elem_of_cons in Hin as [Hin|Hin];
      [discriminate|]); inversion Hin.
  - repeat constructor; vm_compute; eauto.
  - repeat constructor; intros Hin; repeat (apply elem_of_cons in Hin as [Hin|Hin];
      [vm_compute in Hin; discriminate|]); inversion Hin.
Defined.

(* --------------------------------------------------------------------- *)
(** ** Failure isolation per item *)
(* --------------------------------------------------------------------- *)

Section Isolation.
Context {S : Type} (net : Network S).

(** C4. In the iteration over one item: when the latency probe returns no
    data, the record appended is failure-marked with the message
    "Connection failed", the iteration ends in the world the probe left (all
    requests it logged are HEAD requests, none is the download), and the
    loop goes on with the next item.  When the probe returns a latency and
    the throughput measurement returns [None], the record has success
    indicator 100, throughput 0 and no error message.  In every case the
    success indicator is 100 exactly when the probe returned a latency. *)
Theorem probe_failure_isolated (t : CDNTester) (dns ip : string)
  (asn geo hosting : option string) (ch : channel) (w : world S) :
  let url := stream_url t dns (dict_get ch "stream_id" PyNone) in
  let probe := measure_latency net t url 5 w in
  let meter := measure_throughput net t url 5 (snd probe) in
  let step := test_channel net t dns ip asn geo hosting ch w in
  (fst probe = Returned (None, None) ->
     exists r,
       step = (Returned r, snd probe) /\
       failure_marked r /\ error_message r = Some "Connection failed" /\
       emits is_head w (snd step) /\
       forall rest results,
         channel_loop net t dns ip asn geo hosting (ch :: rest) results w =
         channel_loop net t dns ip asn geo hosting rest (results ++ [r]) (snd probe)) /\
  (forall avg jitter,
     fst probe = Returned (Some avg, Some jitter) -> fst meter = Returned None ->
     exists r,
       step = (Returned r, snd meter) /\
       success_rate r = 100%Q /\ throughput_mbps r = 0%Q /\ error_message r = None /\
       avg_latency_ms r = py_round avg 2 /\ jitter_ms r = py_round jitter 2) /\
  (exists r,
     fst step = Returned r /\
     success_rate r = match fst probe with
                      | Returned (Some _, _) => 100%Q
                      | _ => 0%Q
                      end).
Proof.
  cbv zeta. set (url := stream_url t dns _).
  pose proof (test_channel_eq net t dns ip asn geo hosting ch w) as Heq.
  cbv zeta in Heq. fold url in Heq.
  split; [|split].
  - intros Hprobe. rewrite Hprobe in Heq. eexists. split; [exact Heq|].
    split; [repeat split; discriminate|]. split; [reflexivity|]. split.
    + rewrite Heq. simpl.
      eapply emits_weaken; [|apply (measure_latency_emits net t url 5 w)].
      now intros ev [Hhead _].
    + intros rest results. simpl. unfold mbind at 1. unfold io_bind. now rewrite Heq.
  - intros avg jitter Hprobe Hmeter. rewrite Hprobe, Hmeter in Heq. simpl in Heq.
    eexists. split; [exact Heq|]. repeat split.
  - rewrite Heq.
    destruct (measure_latency_shape net t url 5 w) as [->|(avg & jitter & ->)].
    + eexists. split; reflexivity.
    + destruct (measure_throughput_returns net t url 5 (snd (measure_latency net t url 5 w)))
        as [thr ->]; [reflexivity|].
      eexists. split; reflexivity.
Qed.

End Isolation.

Lemma probe_failure_isolated_witness :
  (exists r,
     fst (test_channel Examples.dead_net Examples.tester "http://cdn.example" "192.0.2.9"
            None None None Examples.channel_1 (Examples.start_of_run ())) = Returned r /\
     success_rate r = 0%Q /\ error_message r = Some "Connection failed") /\
  (exists r,
     fst (test_channel Examples.unauthorized_net Examples.tester "http://cdn.example"
            "192.0.2.10" None None None Examples.channel_1 (Examples.start_of_run ()))
       = Returned r /\
     success_rate r = 100%Q /\ throughput_mbps r = 0%Q /\ error_message r = None).
Proof.
  split.
  - destruct (proj1 (probe_failure_isolated Examples.dead_net Examples.tester
                       "http://cdn.example" "192.0.2.9" None None None Examples.channel_1
                       (Examples.start_of_run ())) eq_refl)
      as (r & Hstep & Hmarked & Hmsg & _).
    exists r. rewrite Hstep. split; [reflexivity|]. split; [apply Hmarked | exact Hmsg].
  - destruct (proj1 (proj2 (probe_failure_isolated Examples.unauthorized_net Examples.tester
                       "http://cdn.example" "192.0.2.10" None None None Examples.channel_1
                       (Examples.start_of_run ())))
                (mean (replicate 5 (Log.latency_ms 0 12000000)))
                (sample_stdev [Log.latency_ms 0 12000000;
                               Log.latency_ms 512000000 524000000;
                               Log.latency_ms 1024000000 1036000000;
                               Log.latency_ms 1536000000 1548000000;
                               Log.latency_ms 2048000000 2060000000]))
      as (r & Hstep & H100 & Hthr & Hmsg & _).
    + vm_compute. reflexivity.
    + reflexivity.
    + exists r. rewrite Hstep. auto.
Defined.

(* --------------------------------------------------------------------- *)
(** ** The user agent *)
(* --------------------------------------------------------------------- *)

Section UserAgent.
Context {S : Type} (net : Network S).

Lemma user_agent_init u p ua :
  user_agent (CDNTester_init u p ua) =
    if String.eqb (lower ua) "vlc" then VLC_UA else TIVIMATE_UA.
Proof.
  unfold CDNTester_init. simpl. rewrite USER_AGENTS_lookup.
  destruct (String.eqb_spec (lower ua) "tivimate") as [->|Ht]; [reflexivity|].
  destruct (String.eqb (lower ua) "vlc"); reflexivity.
Qed.

(** C10. Whatever string is given as [user_agent], the tester's user
    agent is one of the two known strings: the VLC one when the lower-cased
    argument is "vlc", the TiviMate one when it is "tivimate" and also when
    it is neither.  Arguments that differ only by case give the same
    tester, and every request of a run that presents a user agent presents
    one of the two. *)
Theorem unknown_user_agent_falls_back (u p ua : string) (dns_entries : list string)
  (channels : list channel) (w : world S) :
  let t := CDNTester_init u p ua in
  (user_agent t = TIVIMATE_UA \/ user_agent t = VLC_UA) /\
  (lower ua = "vlc" -> user_agent t = VLC_UA) /\
  (lower ua = "tivimate" -> user_agent t = TIVIMATE_UA) /\
  (lower ua <> "tivimate" -> lower ua <> "vlc" -> user_agent t = TIVIMATE_UA) /\
  (forall ua', lower ua' = lower ua -> CDNTester_init u p ua' = t) /\
  emits known_ua w (snd (run_tests net t dns_entries channels w)).
Proof.
  cbv zeta.
  assert (Hknown : user_agent (CDNTester_init u p ua) = TIVIMATE_UA \/
                   user_agent (CDNTester_init u p ua) = VLC_UA).
  { rewrite user_agent_init. destruct (String.eqb (lower ua) "vlc"); auto. }
  split; [exact Hknown|]. split; [|split; [|split; [|split]]].
  - intros H. rewrite user_agent_init, H. reflexivity.
  - intros H. rewrite user_agent_init, H. reflexivity.
  - intros _ H. rewrite user_agent_init.
    destruct (String.eqb_spec (lower ua) "vlc"); [contradiction | reflexivity].
  - intros ua' H. unfold CDNTester_init. now rewrite H.
  - destruct (run_tests_returns net (CDNTester_init u p ua) dns_entries channels w)
      as (_ & _ & _ & Hem).
    eapply emits_weaken; [|exact Hem].
    intros ev Hsent x Hx. rewrite (Hsent x Hx). exact Hknown.
Qed.

End UserAgent.

Lemma unknown_user_agent_falls_back_witness :
  user_agent (CDNTester_init "alice" "secret" "Kodi") = TIVIMATE_UA /\
  user_agent (CDNTester_init "alice" "secret" "VLC") = VLC_UA /\
  user_agent (CDNTester_init "alice" "secret" "TiviMate") = TIVIMATE_UA /\
  CDNTester_init "alice" "secret" "vLc" = CDNTester_init "alice" "secret" "VLC".
Proof.
  split; [|split; [|split]].
  - apply (unknown_user_agent_falls_back Examples.dead_net "alice" "secret" "Kodi" [] []
             (Examples.start_of_run ())); discriminate.
  - apply (unknown_user_agent_falls_back Examples.dead_net "alice" "secret" "VLC" [] []
             (Examples.start_of_run ())). reflexivity.
  - apply (proj1 (proj2 (proj2 (unknown_user_agent_falls_back Examples.dead_net
             "alice" "secret" "TiviMate" [] [] (Examples.start_of_run ()))))).
    reflexivity.
  - apply (unknown_user_agent_falls_back Examples.dead_net "alice" "secret" "VLC" [] []
             (Examples.start_of_run ())). reflexivity.
Defined.

(* --------------------------------------------------------------------- *)
(** ** The ranking *)
(* --------------------------------------------------------------------- *)

Section StableSort.
Context {A : Type} (lt : A -> A -> bool).

Lemma insort_left_perm x l : Permutation (insort_left lt x l) (x :: l).
Proof.
  induction l as [|y l IH]; simpl; [reflexivity|].
  destruct (lt y x); [|reflexivity].
  rewrite IH. apply perm_swap.
Qed.

Lemma py_sorted_perm l : Permutation (py_sorted lt l) l.
Proof.
  induction l as [|x l IH]; simpl; [reflexivity|].
  rewrite insort_left_perm. now constructor.
Qed.

Hypothesis lt_asym : forall a b, lt a b = true -> lt b a = false.
Hypothesis ge_trans : forall a b c, lt b a = false -> lt c b = false -> lt c a = false.

Lemma insort_left_sorted x l :
  StronglySorted (fun a b => lt b a = false) l ->
  StronglySorted (fun a b => lt b a = false) (insort_left lt x l).
Proof.
  induction 1 as [|y l Hl IH Hy]; simpl; [repeat constructor|].
  destruct (lt y x) eqn:E.
  - constructor; [exact IH|].
    rewrite (insort_left_perm x l). constructor; [now apply lt_asym | exact Hy].
  - constructor; [now constructor|].
    constructor; [exact E|].
    eapply Forall_impl; [exact Hy|]. intros z Hz. simpl in Hz. now apply (ge_trans x y z).
Qed.

Lemma py_sorted_sorted l : StronglySorted (fun a b => lt b a = false) (py_sorted lt l).
Proof.
  induction l as [|x l IH]; simpl; [constructor | now apply insort_left_sorted].
Qed.

(** Stability: the items selected by a test that never holds on both of
    two items in strict order keep their relative order. *)
Lemma insort_left_filter (P : A -> bool) x l :
  (forall a b, lt a b = true -> P b = true -> P a = false) ->
  List.filter P (insort_left lt x l) = List.filter P (x :: l).
Proof.
  intros HP. induction l as [|y l IH]; [reflexivity|].
  simpl insort_left. destruct (lt y x) eqn:E; [|reflexivity].
  simpl. simpl in IH. rewrite IH.
  destruct (P x) eqn:Ex; [|reflexivity].
  now rewrite (HP y x E Ex).
Qed.

Lemma py_sorted_filter (P : A -> bool) l :
  (forall a b, lt a b = true -> P b = true -> P a = false) ->
  List.filter P (py_sorted lt l) = List.filter P l.
Proof.
  intros HP. induction l as [|x l IH]; [reflexivity|].
  simpl py_sorted. rewrite insort_left_filter by exact HP. simpl. now rewrite IH.
Qed.

End StableSort.

Lemma StronglySorted_lookup {A} (R : A -> A -> Prop) (l : list A) i j a b :
  StronglySorted R l -> l !! i = Some a -> l !! j = Some b -> (i < j)%nat -> R a b.
Proof.
  intros Hs. revert i j. induction Hs as [|x l Hl IH Hx]; intros i j Hi Hj Hlt.
  - discriminate.
  - destruct j as [|j]; [lia|]. destruct i as [|i].
    + injection Hi as ->. simpl in Hj.
      rewrite Forall_forall in Hx. apply Hx. eapply list_elem_of_lookup_2. exact Hj.
    + simpl in Hi, Hj. apply (IH i j); auto. lia.
Qed.

Section ScoreOrder.
#[local] Open Scope Q_scope.

Lemma Qlt_bool_iff x y : Qlt_bool x y = true <-> x < y.
Proof.
  unfold Qlt_bool. rewrite negb_true_iff. split.
  - intros H. apply Qnot_le_lt. intros Hle. apply Qle_bool_iff in Hle. congruence.
  - intros H. destruct (Qle_bool y x) eqn:E; [|reflexivity].
    apply Qle_bool_iff in E. lra.
Qed.

Lemma Qlt_bool_false x y : Qlt_bool x y = false <-> y <= x.
Proof.
  split.
  - intros H. apply Qnot_lt_le. intros Hlt. apply Qlt_bool_iff in Hlt. congruence.
  - intros H. destruct (Qlt_bool x y) eqn:E; [|reflexivity].
    apply Qlt_bool_iff in E. lra.
Qed.

Lemma score_ltb_asym a b : score_ltb a b = true -> score_ltb b a = false.
Proof.
  destruct a as [x|], b as [y|]; simpl; try easy.
  rewrite Qlt_bool_iff, Qlt_bool_false. lra.
Qed.

Lemma score_geb_trans a b c :
  score_ltb b a = false -> score_ltb c b = false -> score_ltb c a = false.
Proof.
  destruct a as [x|], b as [y|], c as [z|]; simpl; try easy.
  rewrite !Qlt_bool_false. lra.
Qed.

Lemma tied_excludes_smaller sc (a b : string * score) :
  by_score a b = true -> tied sc b = true -> tied sc a = false.
Proof.
  unfold by_score, tied. destruct a as [da [x|]], b as [db [y|]], sc as [z|]; simpl; try easy.
  rewrite andb_true_iff, !negb_true_iff, andb_false_iff, !negb_false_iff.
  rewrite !Qlt_bool_iff, !Qlt_bool_false. intros Hxy [H1 H2]. left. lra.
Qed.

Lemma score_equiv_PosInf sc : score_equiv sc PosInf -> sc = PosInf.
Proof. now destruct sc. Qed.

Lemma score_equiv_Finite sc q : score_equiv sc (Finite q) -> exists q', sc = Finite q'.
Proof. destruct sc; [eauto | contradiction]. Qed.

End ScoreOrder.

Section Grouping.
#[local] Open Scope Q_scope.

Lemma first_seen_snoc keys k :
  first_seen (keys ++ [k]) =
    if existsb (fun k' => String.eqb k' k) (first_seen keys)
    then first_seen keys else first_seen keys ++ [k].
Proof. unfold first_seen. now rewrite fold_left_app. Qed.

Lemma group_by_dns_snoc results r :
  group_by_dns (results ++ [r]) = by_dns_add (group_by_dns results) r.
Proof. unfold group_by_dns. now rewrite fold_left_app. Qed.

Lemma records_of_dns_snoc dns results r :
  records_of_dns dns (results ++ [r]) =
    records_of_dns dns results ++ (if String.eqb (dns_entry r) dns then [r] else []).
Proof. unfold records_of_dns. now rewrite List.filter_app. Qed.

Lemma unseen_has_no_records dns results :
  existsb (fun k' => String.eqb k' dns) (first_seen (map dns_entry results)) = false ->
  records_of_dns dns results = [].
Proof.
  induction results as [|r results IH] using rev_ind; [reflexivity|].
  rewrite map_app. change (map dns_entry [r]) with [dns_entry r].
  rewrite first_seen_snoc, records_of_dns_snoc.
  destruct (existsb _ (first_seen (map dns_entry results))) eqn:Eseen at 1.
  - intros H. rewrite (IH H).
    destruct (String.eqb_spec (dns_entry r) dns) as [<-|_]; [congruence | reflexivity].
  - rewrite existsb_app. simpl. rewrite orb_false_r, orb_false_iff.
    intros [H1 H2]. rewrite (IH H1), H2. reflexivity.
Qed.

Lemma dict_update_group results r keys :
  dict_update (dns_entry r) (fun res_list => res_list ++ [r])
    (map (fun k => (k, records_of_dns k results)) keys) =
  map (fun k => (k, records_of_dns k (results ++ [r]))) keys.
Proof.
  unfold dict_update. rewrite map_map. apply map_ext. intros k. simpl.
  rewrite records_of_dns_snoc, (String.eqb_sym (dns_entry r) k).
  destruct (String.eqb k (dns_entry r)); [reflexivity | now rewrite app_nil_r].
Qed.

Lemma dict_has_group results keys dns :
  dict_has (map (fun k => (k, records_of_dns k results)) keys) dns =
  existsb (fun k' => String.eqb k' dns) keys.
Proof. unfold dict_has. induction keys as [|k keys IH]; simpl; congruence. Qed.

(** The grouping loop: the endpoints in first-seen order, each with its
    records in their order. *)
Lemma group_by_dns_spec results :
  group_by_dns results =
    map (fun k => (k, records_of_dns k results)) (first_seen (map dns_entry results)).
Proof.
  induction results as [|r results IH] using rev_ind; [reflexivity|].
  rewrite group_by_dns_snoc, IH, map_app. change (map dns_entry [r]) with [dns_entry r].
  rewrite first_seen_snoc.
  unfold by_dns_add. rewrite dict_has_group.
  destruct (existsb _ (first_seen (map dns_entry results))) eqn:Eseen; simpl.
  - apply dict_update_group.
  - rewrite map_app, <- dict_update_group. simpl.
    unfold dict_update at 1. rewrite map_app. f_equal. simpl.
    rewrite records_of_dns_snoc, String.eqb_refl.
    now rewrite (unseen_has_no_records _ _ Eseen).
Qed.

Lemma dns_score_returns res_list :
  exists sc, dns_score res_list = Returned sc /\ score_equiv sc (composite_score res_list).
Proof.
  unfold dns_score, composite_score. destruct (successful res_list) as [|r succ].
  - now exists PosInf.
  - eexists. split; [reflexivity|]. simpl. ring.
Qed.

Lemma score_all_returns items :
  exists scores,
    score_all items = Returned scores /\
    Forall2 (fun item entry =>
               fst entry = fst item /\ score_equiv (snd entry) (composite_score (snd item)))
            items scores.
Proof.
  induction items as [|[dns res_list] items (scores & Hscores & Hall)].
  - exists []. split; [reflexivity | constructor].
  - destruct (dns_score_returns res_list) as (sc & Hsc & Hequiv).
    exists ((dns, sc) :: scores). simpl. rewrite Hsc, Hscores. split; [reflexivity|].
    constructor; [now split | exact Hall].
Qed.

End Grouping.

Section RankingFacts.
#[local] Open Scope Q_scope.

Lemma scores_of_groups results keys scores :
  Forall2 (fun item entry =>
             fst entry = fst item /\ score_equiv (snd entry) (composite_score (snd item)))
          (map (fun k => (k, records_of_dns k results)) keys) scores ->
  map fst scores = keys /\
  Forall (fun entry =>
            score_equiv (snd entry) (composite_score (records_of_dns (fst entry) results)))
         scores.
Proof.
  revert scores. induction keys as [|k keys IH]; intros scores Hall; simpl in Hall.
  - inversion Hall. split; [reflexivity | constructor].
  - inversion Hall as [|item entry items scores' [Hk Hsc] Hrest]; subst.
    destruct (IH _ Hrest) as [Hkeys Hforall]. simpl in *. split.
    + now rewrite Hk, Hkeys.
    + constructor; [now rewrite Hk | exact Hforall].
Qed.

(** C2. The report ranks the endpoints by a stable ascending sort of their
    scores.  The endpoints are taken in first-seen order; the score of an
    endpoint is mean latency - 10 x mean throughput over its successful
    records, and positive infinity when it has none.  The ranking is a
    permutation of the scored endpoints in which no entry is followed by a
    smaller score, entries with tied scores keep their first-seen order, and
    an endpoint without successful record comes after every endpoint that
    has one. *)
Theorem ranking_stable_ascending (results : list TestResult) :
  exists scores ranking,
    score_all (group_by_dns results) = Returned scores /\
    sorted_dns results = Returned ranking /\
    map fst scores = first_seen (map dns_entry results) /\
    Forall (fun entry =>
              score_equiv (snd entry) (composite_score (records_of_dns (fst entry) results)))
           scores /\
    Permutation ranking scores /\
    StronglySorted not_after ranking /\
    (forall sc, List.filter (tied sc) ranking = List.filter (tied sc) scores) /\
    (forall i j a b,
        ranking !! i = Some a -> ranking !! j = Some b ->
        successful (records_of_dns (fst a) results) = [] ->
        successful (records_of_dns (fst b) results) <> [] ->
        (j < i)%nat).
Proof.
  destruct (score_all_returns (group_by_dns results)) as (scores & Hscores & Hall).
  rewrite group_by_dns_spec in Hall.
  apply scores_of_groups in Hall as [Hkeys Hformula].
  assert (Hsorted : StronglySorted not_after (py_sorted by_score scores)).
  { apply (py_sorted_sorted by_score).
    - intros a b. apply score_ltb_asym.
    - intros a b c. apply score_geb_trans. }
  exists scores, (py_sorted by_score scores).
  split; [exact Hscores|]. split; [unfold sorted_dns; now rewrite Hscores|].
  split; [exact Hkeys|]. split; [exact Hformula|].
  split; [apply py_sorted_perm|]. split; [exact Hsorted|]. split.
  - intros sc. apply py_sorted_filter. intros a b. apply tied_excludes_smaller.
  - intros i j a b Hi Hj Hnone Hsome.
    assert (Hin : forall k e, py_sorted by_score scores !! k = Some e ->
              score_equiv (snd e) (composite_score (records_of_dns (fst e) results))).
    { intros k e Hk. rewrite Forall_forall in Hformula. apply Hformula.
      rewrite <- (py_sorted_perm by_score scores). eapply list_elem_of_lookup_2. exact Hk. }
    pose proof (Hin i a Hi) as Ha. pose proof (Hin j b Hj) as Hb.
    unfold composite_score in Ha, Hb. rewrite Hnone in Ha.
    apply score_equiv_PosInf in Ha.
    destruct (successful (records_of_dns (fst b) results)) as [|r succ]; [contradiction|].
    apply score_equiv_Finite in Hb as [q Hq].
    destruct (Nat.lt_trichotomy i j) as [Hlt|[Heq|Hgt]]; [|subst j|exact Hgt].
    + pose proof (StronglySorted_lookup _ _ _ _ _ _ Hsorted Hi Hj Hlt) as Hle.
      unfold not_after in Hle. rewrite Ha, Hq in Hle. discriminate.
    + rewrite Hi in Hj. injection Hj as <-. congruence.
Qed.

End RankingFacts.

Lemma ranking_stable_ascending_witness :
  let results :=
    [ dns_failure_result "http://a.example" "t0" Examples.channel_1;
      dns_failure_result "http://a.example" "t0" Examples.channel_2;
      measured_result "http://b.example" "198.51.100.4" None None None
        (PyInt 101) (PyStr "News") "t1" 15%Q 0%Q (Some (7 # 100)%Q);
      measured_result "http://b.example" "198.51.100.4" None None None
        (PyInt 102) (PyStr "Sport") "t2" 17%Q (1 # 2)%Q None ] in
  sorted_dns results
    = Returned [("http://b.example", Finite (mean [15%Q; 17%Q] - mean [py_round (7 # 100) 2; 0%Q] * 10)%Q);
                ("http://a.example", PosInf)] /\
  (0 < 1)%nat.
Proof.
  intros results. split; [reflexivity|].
  destruct (ranking_stable_ascending results)
    as (scores & ranking & _ & Hranking & _ & _ & _ & _ & _ & Hlast).
  assert (Hr : Returned ranking
               = Returned [("http://b.example",
                            Finite (mean [15%Q; 17%Q] - mean [py_round (7 # 100) 2; 0%Q] * 10)%Q);
                           ("http://a.example", PosInf)])
    by (rewrite <- Hranking; reflexivity).
  injection Hr as ->.
  apply (Hlast 1%nat 0%nat ("http://a.example", PosInf)
           ("http://b.example", Finite (mean [15%Q; 17%Q] - mean [py_round (7 # 100) 2; 0%Q] * 10)%Q)).
  - reflexivity.
  - reflexivity.
  - reflexivity.
  - discriminate.
Defined.

(* ===================================================================== *)
(** * Further properties of the code *)
(* ===================================================================== *)

(* --------------------------------------------------------------------- *)
(** ** Provider labels *)
(* --------------------------------------------------------------------- *)

(** The label that [identify_hosting_provider] returns is never the empty
    string: every rule has a non-empty label, and the fallback replaces an
    empty organisation by "Unknown". *)
Theorem identify_hosting_provider_nonempty (org : string) (asn : pyval) :
  identify_hosting_provider org asn <> "".
Proof.
  unfold identify_hosting_provider.
  repeat match goal with
         | |- context [if ?b then _ else _] => destruct b eqn:?; [discriminate|]
         end.
  destruct (str_truthy org) eqn:E; [|discriminate].
  intros ->. discriminate E.
Qed.

(* --------------------------------------------------------------------- *)
(** ** Rounding *)
(* --------------------------------------------------------------------- *)

Section Rounding.
#[local] Open Scope Q_scope.


Lemma round_half_even_nonneg y : 0 <= y -> (0 <= round_half_even y)%Z.
Proof.
  intros Hy. unfold round_half_even.
  assert (H0 : (0 <= Qfloor y)%Z).
  { change 0%Z with (Qfloor 0). now apply Qfloor_resp_le. }
  destruct (Qcompare _ _); [destruct (Z.even _)| |]; lia.
Qed.

Lemma scale_positive ndigits : 0 < inject_Z (10 ^ Z.of_nat ndigits).
Proof.
  assert (H : (0 < 10 ^ Z.of_nat ndigits)%Z) by (apply Z.pow_pos_nonneg; lia).
  unfold Qlt. simpl. lia.
Qed.

Lemma py_round_nonneg x ndigits : 0 <= x -> 0 <= py_round x ndigits.
Proof.
  intros Hx. unfold py_round. pose proof (scale_positive ndigits) as Hs.
  apply Qle_shift_div_l; [exact Hs|]. rewrite Qmult_0_l.
  change 0 with (inject_Z 0). rewrite <- Zle_Qle.
  apply round_half_even_nonneg. apply Qmult_le_0_compat; [exact Hx | lra].
Qed.


End Rounding.

(* --------------------------------------------------------------------- *)
(** ** Groups and ranking of the report *)
(* --------------------------------------------------------------------- *)

Section Groups.

Lemma elem_of_map {A B} (f : A -> B) (l : list A) (y : B) :
  y ∈ map f l <-> exists x, y = f x /\ x ∈ l.
Proof. rewrite map_is_fmap. apply list_elem_of_fmap. Qed.

Lemma existsb_eqb_elem (k : string) (l : list string) :
  existsb (fun k' => String.eqb k' k) l = true <-> k ∈ l.
Proof.
  rewrite existsb_exists, list_elem_of_In. split.
  - intros (k' & Hin & Heq). apply String.eqb_eq in Heq. now subst.
  - intros Hin. exists k. split; [exact Hin | apply String.eqb_refl].
Qed.

Lemma first_seen_elem (k : string) (keys : list string) :
  k ∈ first_seen keys <-> k ∈ keys.
Proof.
  induction keys as [|k0 keys IH] using rev_ind; [reflexivity|].
  rewrite first_seen_snoc, elem_of_app, list_elem_of_singleton.
  destruct (existsb _ (first_seen keys)) eqn:E.
  - apply existsb_eqb_elem in E. rewrite IH. split; [tauto|].
    intros [H| ->]; [exact H | now apply IH].
  - rewrite elem_of_app, list_elem_of_singleton, IH. tauto.
Qed.

Lemma first_seen_NoDup (keys : list string) : NoDup (first_seen keys).
Proof.
  induction keys as [|k0 keys IH] using rev_ind; [constructor|].
  rewrite first_seen_snoc. destruct (existsb _ (first_seen keys)) eqn:E; [exact IH|].
  apply NoDup_app. split; [exact IH|]. split; [|repeat constructor; apply not_elem_of_nil].
  intros k Hk Hk'. apply list_elem_of_singleton in Hk'. subst k0.
  apply existsb_eqb_elem in Hk. congruence.
Qed.

Lemma records_of_dns_elem dns r results :
  r ∈ records_of_dns dns results <-> r ∈ results /\ dns_entry r = dns.
Proof.
  unfold records_of_dns. rewrite !list_elem_of_In, filter_In, String.eqb_eq. tauto.
Qed.

(** The grouping loop of [generate_report] keeps these invariants: no
    endpoint has two groups, the endpoints come in first-seen order, no
    group is empty (so [res_list[0]] exists), a group holds exactly the
    records of its endpoint in their original order, and every record is in
    the group of its endpoint. *)
Theorem group_by_dns_partition (results : list TestResult) :
  NoDup (map fst (group_by_dns results)) /\
  map fst (group_by_dns results) = first_seen (map dns_entry results) /\
  Forall (fun group =>
            snd group <> [] /\
            snd group = records_of_dns (fst group) results /\
            Forall (fun r => dns_entry r = fst group) (snd group))
         (group_by_dns results) /\
  (forall r, r ∈ results ->
     exists group, group ∈ group_by_dns results /\ fst group = dns_entry r /\ r ∈ snd group).
Proof.
  rewrite group_by_dns_spec.
  assert (Hkeys : map fst (map (fun k => (k, records_of_dns k results))
                            (first_seen (map dns_entry results)))
                  = first_seen (map dns_entry results)).
  { rewrite map_map. simpl. apply map_id. }
  split; [rewrite Hkeys; apply first_seen_NoDup|]. split; [exact Hkeys|]. split.
  - rewrite Forall_forall. intros group Hgroup.
    apply elem_of_map in Hgroup as (k & -> & Hk).
    simpl. apply (proj1 (first_seen_elem _ _)) in Hk.
    apply elem_of_map in Hk as (r & -> & Hr).
    split; [|split; [reflexivity|]].
    + intros Hnil. assert (Hin : r ∈ records_of_dns (dns_entry r) results)
        by now apply records_of_dns_elem.
      rewrite Hnil in Hin. now apply not_elem_of_nil in Hin.
    + rewrite Forall_forall. intros r' Hr'. now apply records_of_dns_elem in Hr'.
  - intros r Hr. exists (dns_entry r, records_of_dns (dns_entry r) results).
    split; [|split; [reflexivity | now apply records_of_dns_elem]].
    apply elem_of_map. exists (dns_entry r).
    split; [reflexivity|]. apply first_seen_elem.
    apply elem_of_map. eauto.
Qed.

(** The ranking of the report has exactly one entry per distinct endpoint
    of the results: it is never longer than the result list, lists no
    endpoint twice and leaves none out; scoring never raises. *)
Theorem sorted_dns_once_per_endpoint (results : list TestResult) :
  exists ranking,
    sorted_dns results = Returned ranking /\
    Permutation (map fst ranking) (first_seen (map dns_entry results)) /\
    NoDup (map fst ranking) /\
    (forall r, r ∈ results -> dns_entry r ∈ map fst ranking) /\
    (forall dns, dns ∈ map fst ranking -> exists r, r ∈ results /\ dns_entry r = dns).
Proof.
  destruct (score_all_returns (group_by_dns results)) as (scores & Hscores & Hall).
  rewrite group_by_dns_spec in Hall. apply scores_of_groups in Hall as [Hkeys _].
  exists (py_sorted by_score scores).
  assert (Hperm : Permutation (map fst (py_sorted by_score scores))
                    (first_seen (map dns_entry results))).
  { rewrite <- Hkeys. apply Permutation_map, py_sorted_perm. }
  split; [unfold sorted_dns; now rewrite Hscores|]. split; [exact Hperm|].
  split; [rewrite Hperm; apply first_seen_NoDup|]. split.
  - intros r Hr. rewrite Hperm. apply first_seen_elem.
    apply elem_of_map. eauto.
  - intros dns Hdns. rewrite Hperm in Hdns. apply (proj1 (first_seen_elem _ _)) in Hdns.
    apply elem_of_map in Hdns as (r & -> & Hr). eauto.
Qed.

End Groups.

(* --------------------------------------------------------------------- *)
(** ** Timing and requests of the probe *)
(* --------------------------------------------------------------------- *)

Section ProbeTiming.
Context {S : Type} (net : Network S).
#[local] Open Scope Q_scope.

Lemma sleep_half_second (w : world S) :
  asyncio_sleep (1 # 2) w = (Returned (), tick 500000000 w).
Proof. reflexivity. Qed.

Lemma prefix_append (s x : string) : String.prefix s (s +:+ x) = true.
Proof.
  induction s as [|c s IH]; simpl; [now destruct x|].
  destruct (ascii_dec c c); [exact IH | contradiction].
Qed.

Lemma append_cons (c : ascii) (s x : string) : String c s +:+ x = String c (s +:+ x).
Proof. reflexivity. Qed.

Lemma append_assoc (a b c : string) : (a +:+ b) +:+ c = a +:+ (b +:+ c).
Proof.
  induction a as [|x a IH]; [reflexivity|]. rewrite !append_cons. now rewrite IH.
Qed.

Lemma stream_url_prefix t dns stream_id :
  String.prefix (dns +:+ "/live/") (stream_url t dns stream_id) = true.
Proof.
  unfold stream_url. rewrite <- append_assoc. apply prefix_append.
Qed.

(** The probe loop, request by request: each logged request is a HEAD for
    [url] with the tester's user agent that ends no earlier than it starts,
    and the clock advances by the round trips plus half a second for every
    answered request. *)
Lemma ping_loop_timing t url pings latencies (w : world S) :
  exists evs,
    trace (snd (ping_loop net t url pings latencies w)) = trace w ++ evs /\
    length evs = pings /\
    Forall (fun ev => head_of url (user_agent t) ev /\
                      (exists u a t0 t1 r, ev = EvHead u a t0 t1 r /\ (t0 <= t1)%N)) evs /\
    clock_ns (snd (ping_loop net t url pings latencies w)) =
      (clock_ns w + total_ns evs
       + 500000000 * N.of_nat (length (List.filter answered evs)))%N.
Proof.
  revert latencies w. induction pings as [|pings IH]; intros latencies w.
  - exists []. simpl. rewrite app_nil_r.
    split; [reflexivity|]. split; [reflexivity|]. split; [constructor|].
    unfold total_ns. simpl. lia.
  - simpl.
    destruct (session_head_world net url (user_agent t) 10 w) as (r & dt & s & _ & ->).
    set (ev := EvHead url (user_agent t) (clock_ns w) (clock_ns w + dt)%N r).
    assert (Hev : head_of url (user_agent t) ev /\
                  (exists u a t0 t1 r', ev = EvHead u a t0 t1 r' /\ (t0 <= t1)%N)).
    { split; [now split|]. exists url, (user_agent t), (clock_ns w), (clock_ns w + dt)%N, r.
      split; [reflexivity | lia]. }
    destruct r as [status|e].
    + match goal with |- context [ping_loop net t url pings ?l ?w'] =>
        destruct (IH l w') as (evs & Htr & Hlen & Hall & Hclock) end.
      exists (ev :: evs). rewrite Htr, Hclock. simpl. repeat split.
      * now rewrite <- app_assoc.
      * now rewrite Hlen.
      * now constructor.
      * unfold total_ns. simpl. fold (total_ns evs). lia.
    + match goal with |- context [ping_loop net t url pings ?l ?w'] =>
        destruct (IH l w') as (evs & Htr & Hlen & Hall & Hclock) end.
      exists (ev :: evs). rewrite Htr, Hclock. simpl. repeat split.
      * now rewrite <- app_assoc.
      * now rewrite Hlen.
      * now constructor.
      * unfold total_ns. simpl. fold (total_ns evs). lia.
Qed.

(** The latency probe waits half a second after every request that was
    answered and not after one that raised: when it returns, the clock has
    advanced by the round trips of its [num_pings] requests plus 0.5 s per
    answered request, whatever the statuses. *)
Theorem measure_latency_pauses_after_answers (t : CDNTester) (url : string)
  (num_pings : Z) (w : world S) :
  let w' := snd (measure_latency net t url num_pings w) in
  let evs := logged_between w w' in
  length evs = Z.to_nat num_pings /\
  clock_ns w' =
    (clock_ns w + total_ns evs
     + 500000000 * N.of_nat (length (List.filter answered evs)))%N.
Proof.
  cbv zeta. unfold measure_latency.
  destruct (ping_loop_timing t url (Z.to_nat num_pings) [] w) as (evs & Htr & Hlen & _ & Hclock).
  destruct (ping_loop net t url (Z.to_nat num_pings) [] w) as [latencies w1].
  simpl in *. rewrite (logged_between_app _ _ _ Htr). auto.
Qed.

Lemma measure_latency_measurements t dns stream_id num_pings (w : world S) :
  emits (measurement_of t dns) w
        (snd (measure_latency net t (stream_url t dns stream_id) num_pings w)).
Proof.
  unfold measure_latency.
  destruct (ping_loop_timing t (stream_url t dns stream_id) (Z.to_nat num_pings) [] w)
    as (evs & Htr & _ & Hall & _).
  destruct (ping_loop net t _ (Z.to_nat num_pings) [] w) as [latencies w1]. simpl in *.
  exists evs. split; [exact Htr|].
  eapply Forall_impl; [exact Hall|].
  intros ev [Hhead (u & a & t0 & t1 & r & -> & Hle)]. simpl in *.
  destruct Hhead as [-> ->]. repeat split; [apply stream_url_prefix | exact Hle].
Qed.

Lemma sample_nonneg ev :
  (exists u a t0 t1 r, ev = EvHead u a t0 t1 r /\ (t0 <= t1)%N) ->
  Forall (fun x => 0 <= x) (event_samples ev).
Proof.
  intros (u & a & t0 & t1 & r & -> & Hle). simpl.
  destruct r as [status|e]; simpl; [|constructor].
  destruct (status_accepted status); [|constructor].
  repeat constructor. unfold latency_ms, Qle, Qminus, Qplus, Qmult, Qopp. simpl. lia.
Qed.

Lemma Qsum_nonneg l : Forall (fun x => 0 <= x) l -> 0 <= Qsum l.
Proof.
  induction 1 as [|x l Hx _ IH]; simpl; [apply Qle_refl|].
  replace 0 with (0 + 0) by reflexivity. now apply Qplus_le_compat.
Qed.

Lemma mean_nonneg l : Forall (fun x => 0 <= x) l -> 0 <= mean l.
Proof.
  intros Hl. unfold mean, Qdiv. apply Qmult_le_0_compat; [now apply Qsum_nonneg|].
  apply Qinv_le_0_compat. unfold Qle. simpl. lia.
Qed.

(** What the probe returns is not negative. *)
Lemma measure_latency_nonneg t url num_pings (w : world S) avg jitter :
  fst (measure_latency net t url num_pings w) = Returned (Some avg, Some jitter) ->
  0 <= avg /\ 0 <= jitter.
Proof.
  unfold measure_latency.
  destruct (ping_loop_timing t url (Z.to_nat num_pings) [] w) as (evs & Htr & _ & Hall & _).
  destruct (ping_loop_log net t url (Z.to_nat num_pings) [] w) as (evs' & Htr' & _ & _ & Hfst).
  rewrite Htr in Htr'. apply app_inv_head in Htr'. subst evs'.
  destruct (ping_loop net t url (Z.to_nat num_pings) [] w) as [latencies w1]. simpl in *.
  subst latencies. rewrite latency_summary_eq.
  assert (Hpos : Forall (fun x => 0 <= x) (samples evs)).
  { unfold samples. clear Htr. induction Hall as [|ev evs [_ Hev] _ IH]; simpl; [constructor|].
    apply Forall_app. split; [now apply sample_nonneg | exact IH]. }
  destruct (samples evs) as [|x l] eqn:E; [discriminate|]. intros [= <- <-]. split.
  - now apply mean_nonneg.
  - destruct l; [apply Qle_refl | apply float_sqrt_nonneg].
Qed.

End ProbeTiming.

(* --------------------------------------------------------------------- *)
(** ** Requests and records of one endpoint *)
(* --------------------------------------------------------------------- *)

Section EndpointRun.
Context {S : Type} (net : Network S).
#[local] Open Scope Q_scope.

Lemma measure_throughput_log t url duration (w : world S) :
  exists r,
    trace (snd (measure_throughput net t url duration w)) =
    trace w ++ [EvGet url (Some (user_agent t)) (duration + 5) r].
Proof.
  rewrite measure_throughput_world. unfold throughput_attempt.
  destruct (session_get_world net url (Some (user_agent t)) (duration + 5)%Z w)
    as (r & dt & s & _ & ->).
  exists r. destruct r as [resp|e]; simpl; [|reflexivity].
  destruct (status resp =? 200)%Z; simpl; [|reflexivity].
  match goal with |- context [read_chunks ?a ?b ?c ?d ?e ?w1] =>
    pose proof (read_chunks_trace a b c d e w1) as Htr;
    destruct (read_chunks a b c d e w1) as [[[e'|] bytes] w2] end;
    simpl in *; exact Htr.
Qed.

Lemma measure_throughput_nonneg t url duration (w : world S) v :
  (0 < duration)%Z ->
  fst (measure_throughput net t url duration w) = Returned (Some v) -> 0 <= v.
Proof.
  intros Hd. unfold measure_throughput.
  pose proof (throughput_attempt_nonneg net t url duration w) as Hnonneg.
  destruct (throughput_attempt net t url duration w) as [[[x|e] bytes] w1]; simpl in *.
  - intros [= ->]. now apply Hnonneg.
  - destruct e; try discriminate.
    destruct (0 <? bytes)%N; [|discriminate].
    rewrite mbps_positive_duration by exact Hd. simpl. intros [= <-].
    unfold Qdiv. apply Qmult_le_0_compat.
    + unfold Qle. simpl. lia.
    + apply Qinv_le_0_compat. unfold Qle. simpl. lia.
Qed.

Lemma test_channel_full t dns ip asn geo hosting (ch : channel) (w : world S) :
  exists r,
    fst (test_channel net t dns ip asn geo hosting ch w) = Returned r /\
    channel_result net t dns ip asn geo hosting ch r /\
    emits (measurement_of t dns) w (snd (test_channel net t dns ip asn geo hosting ch w)).
Proof.
  rewrite test_channel_eq. cbv zeta. unfold channel_result.
  set (stream_id := dict_get ch "stream_id" PyNone).
  set (url := stream_url t dns stream_id).
  pose proof (measure_latency_measurements net t dns stream_id 5 w) as Hprobe.
  fold url in Hprobe.
  destruct (measure_latency_shape net t url 5 w) as [Hnone|(avg & jitter & Hsome)].
  - rewrite Hnone. eexists. simpl. split; [reflexivity|]. split; [|exact Hprobe].
    left. eexists. reflexivity.
  - rewrite Hsome.
    destruct (measure_throughput_log t url 5 (snd (measure_latency net t url 5 w))) as [r Hlog].
    destruct (measure_throughput_returns net t url 5 (snd (measure_latency net t url 5 w)))
      as [thr Hthr]; [reflexivity|].
    rewrite Hthr. eexists. simpl. split; [reflexivity|]. split.
    + right. exists (now_isoformat net (snd (measure_throughput net t url 5
                                               (snd (measure_latency net t url 5 w))))),
        w, (snd (measure_latency net t url 5 w)), avg, jitter, thr.
      repeat split; assumption.
    + eapply emits_trans; [exact Hprobe|].
      eapply emits_one; [exact Hlog|].
      simpl. repeat split. apply stream_url_prefix.
Qed.

Lemma channel_loop_full t dns ip asn geo hosting (channels : list channel) results
  (w : world S) :
  exists rs,
    fst (channel_loop net t dns ip asn geo hosting channels results w)
      = Returned (results ++ rs) /\
    Forall2 (channel_result net t dns ip asn geo hosting) channels rs /\
    emits (measurement_of t dns) w
      (snd (channel_loop net t dns ip asn geo hosting channels results w)).
Proof.
  revert results w. induction channels as [|ch channels IH]; intros results w.
  - exists []. simpl. rewrite app_nil_r.
    split; [reflexivity|]. split; [constructor | apply emits_refl].
  - simpl. unfold mbind, io_bind.
    destruct (test_channel_full t dns ip asn geo hosting ch w) as (r & Hr & Hres & Hem).
    destruct (test_channel net t dns ip asn geo hosting ch w) as [o w1]. simpl in *. subst o.
    destruct (IH (results ++ [r]) w1) as (rs & Hrs & Hall & Hem').
    exists (r :: rs). rewrite Hrs, <- app_assoc. simpl.
    split; [reflexivity|]. split; [now constructor | eapply emits_trans; eauto].
Qed.

(** The two courses of [test_endpoint]. *)
Lemma test_endpoint_full t dns (channels : list channel) (w : world S) :
  let lookup := resolve_dns net (endpoint_domain dns) w in
  exists resolved answer rs,
    fst lookup = Returned resolved /\
    fst (test_endpoint net t dns channels w) = Returned rs /\
    ((address_truthy resolved = false /\
      rs = map (dns_failure_result dns (now_isoformat net (snd lookup))) channels /\
      logged_between w (snd (test_endpoint net t dns channels w))
        = [EvResolve (endpoint_domain dns) answer]) \/
     (exists ip asn geo hosting looked_up probes,
        resolved = Some ip /\ address_truthy resolved = true /\
        fst (get_asn_info net ip (snd lookup)) = Returned (asn, geo, hosting) /\
        Forall2 (channel_result net t dns ip asn geo hosting) channels rs /\
        logged_between w (snd (test_endpoint net t dns channels w))
          = EvResolve (endpoint_domain dns) answer
              :: EvGet (ipapi_url ip) None 5 looked_up :: probes /\
        Forall (measurement_of t dns) probes)).
Proof.
  cbv zeta. rewrite test_endpoint_eq. cbv zeta.
  destruct (resolve_dns_returns net (endpoint_domain dns) w) as [resolved Hres].
  rewrite Hres. simpl.
  destruct (getaddrinfo_world net (endpoint_domain dns) w) as (answer & dt & s & _ & Hget).
  rewrite Hget. simpl. set (w1 := World _ s _).
  exists resolved, answer.
  destruct (address_truthy resolved) eqn:Htruthy.
  - destruct resolved as [ip|]; [|discriminate]. simpl.
    destruct (get_asn_info_returns net ip w1) as [[[asn geo] hosting] Hinfo].
    destruct (session_get_world net (ipapi_url ip) None 5 w1) as (looked_up & dt2 & s2 & _ & Hget2).
    rewrite Hget2 in Hinfo. simpl in Hinfo. rewrite Hinfo. simpl.
    set (w2 := World _ s2 _).
    destruct (channel_loop_full t dns ip asn geo hosting channels [] w2)
      as (rs & Hrs & Hall & (probes & Htr & Hprobes)).
    exists rs. split; [reflexivity|]. split; [exact Hrs|]. right.
    exists ip, asn, geo, hosting, looked_up, probes.
    split; [reflexivity|]. split; [reflexivity|].
    split; [now rewrite Hinfo|]. split; [exact Hall|]. split; [|exact Hprobes].
    apply logged_between_app. rewrite Htr. simpl. now rewrite <- !app_assoc.
  - eexists. split; [reflexivity|]. split; [reflexivity|]. left.
    repeat split. now apply logged_between_app.
Qed.

End EndpointRun.

Section EndpointFacts.
Context {S : Type} (net : Network S).
#[local] Open Scope Q_scope.

(** [test_endpoint] resolves the endpoint once.  When the name does not
    resolve, that is the only request it makes: no classification lookup, no
    probe, no download.  When it resolves to [ip], one classification lookup
    for [ip] follows (without the tester's user agent, timeout 5), and every
    later request is a HEAD probe or a download below this endpoint's
    [/live/] path with the tester's user agent. *)
Theorem test_endpoint_resolves_and_classifies_once (t : CDNTester) (dns : string)
  (channels : list channel) (w : world S) :
  let lookup := resolve_dns net (endpoint_domain dns) w in
  let evs := logged_between w (snd (test_endpoint net t dns channels w)) in
  (forall resolved,
      fst lookup = Returned resolved -> address_truthy resolved = false ->
      exists answer, evs = [EvResolve (endpoint_domain dns) answer]) /\
  (forall ip,
      fst lookup = Returned (Some ip) -> ip <> "" ->
      exists answer looked_up probes,
        evs = EvResolve (endpoint_domain dns) answer
                :: EvGet (ipapi_url ip) None 5 looked_up :: probes /\
        Forall (measurement_of t dns) probes).
Proof.
  cbv zeta.
  destruct (test_endpoint_full net t dns channels w)
    as (resolved & answer & rs & Hres & _ & Hcases).
  split.
  - intros resolved' Hres' Hfalsy. rewrite Hres in Hres'. injection Hres' as <-.
    destruct Hcases as [(_ & _ & Hlog)|(ip & a & g & h & lu & probes & _ & Htruthy & _)].
    + eauto.
    + congruence.
  - intros ip Hres' Hip. rewrite Hres in Hres'. injection Hres' as ->.
    destruct Hcases as [(Hfalsy & _)|(ip' & a & g & h & lu & probes & Heq & _ & _ & _ & Hlog & Hall)].
    + simpl in Hfalsy. apply str_truthy_false in Hfalsy. contradiction.
    + injection Heq as <-. eauto.
Qed.

(** All records of one [test_endpoint] call carry the same endpoint, IP
    address and classification: "N/A" and no classification when the name
    did not resolve, otherwise the resolved address and what the single
    [get_asn_info] call returned. *)
Theorem test_endpoint_shares_classification (t : CDNTester) (dns : string)
  (channels : list channel) (w : world S) :
  let lookup := resolve_dns net (endpoint_domain dns) w in
  exists rs ip a g h,
    fst (test_endpoint net t dns channels w) = Returned rs /\
    Forall (fun r => dns_entry r = dns /\ ip_address r = ip /\ asn r = a /\
                     geolocation r = g /\ hosting_provider r = h) rs /\
    (forall resolved,
        fst lookup = Returned resolved ->
        if address_truthy resolved
        then resolved = Some ip /\
             fst (get_asn_info net ip (snd lookup)) = Returned (a, g, h)
        else ip = "N/A" /\ a = None /\ g = None /\ h = None).
Proof.
  cbv zeta.
  destruct (test_endpoint_full net t dns channels w)
    as (resolved & answer & rs & Hres & Hrs & Hcases).
  destruct Hcases as [(Hfalsy & -> & _)|(ip & a & g & h & lu & probes & -> & Htruthy & Hinfo & Hall & _)].
  - exists (map (dns_failure_result dns
                   (now_isoformat net (snd (resolve_dns net (endpoint_domain dns) w)))) channels),
      "N/A", None, None, None.
    split; [exact Hrs|]. split.
    + clear Hrs. induction channels as [|ch channels IH]; simpl; constructor; auto.
    + intros resolved' Hres'. rewrite Hres in Hres'. injection Hres' as <-.
      now rewrite Hfalsy.
  - exists rs, ip, a, g, h. split; [exact Hrs|]. split.
    + clear Hrs. induction Hall as [|ch r channels rs Hr _ IH]; constructor; [|exact IH].
      destruct Hr as [(now & ->)|(now & w0 & w1 & avg & jit & thr & _ & _ & ->)];
        repeat split.
    + intros resolved' Hres'. rewrite Hres in Hres'. injection Hres' as <-.
      now rewrite Htruthy.
Qed.

Lemma throughput_or_zero_nonneg thr :
  (forall v, thr = Some v -> 0 <= v) -> 0 <= throughput_or_zero thr.
Proof.
  intros H. unfold throughput_or_zero. destruct thr as [v|]; [|apply Qle_refl].
  destruct (Qeq_bool v 0); [apply Qle_refl|]. apply py_round_nonneg. now apply H.
Qed.

Lemma channel_result_metrics t dns ip a g h (ch : channel) r :
  channel_result net t dns ip a g h ch r ->
  metrics_nonneg r /\ failure_has_no_metrics r.
Proof.
  intros [(now & ->)|(now & w0 & w1 & avg & jit & thr & Hprobe & Hmeter & ->)].
  - split; [repeat split; apply Qle_refl | intros _; repeat split].
  - apply measure_latency_nonneg in Hprobe as [Havg Hjit]. split.
    + repeat split; simpl.
      * now apply py_round_nonneg.
      * now apply py_round_nonneg.
      * apply throughput_or_zero_nonneg. intros v ->.
        eapply measure_throughput_nonneg; [|exact Hmeter]. reflexivity.
    + intros H. discriminate H.
Qed.

Lemma test_endpoint_metrics t dns (channels : list channel) (w : world S) rs :
  fst (test_endpoint net t dns channels w) = Returned rs ->
  Forall (fun r => metrics_nonneg r /\ failure_has_no_metrics r) rs.
Proof.
  destruct (test_endpoint_full net t dns channels w)
    as (resolved & answer & rs' & _ & Hrs & Hcases).
  rewrite Hrs. intros [= <-].
  destruct Hcases as [(_ & -> & _)|(ip & a & g & h & lu & probes & _ & _ & _ & Hall & _)].
  - clear Hrs. induction channels as [|ch channels IH]; simpl; constructor; [|exact IH].
    split; [repeat split; apply Qle_refl | intros _; repeat split].
  - clear Hrs. induction Hall as [|ch r channels rs' Hr _ IH]; constructor; [|exact IH].
    eapply channel_result_metrics. exact Hr.
Qed.

Lemma endpoint_loop_forall (P : TestResult -> Prop) t :
  (forall dns channels (w : world S) rs,
      fst (test_endpoint net t dns channels w) = Returned rs -> Forall P rs) ->
  forall dns_entries channels all_results (w : world S) rs,
    fst (endpoint_loop net t dns_entries channels all_results w) = Returned rs ->
    Forall P all_results -> Forall P rs.
Proof.
  intros Hstep dns_entries channels.
  induction dns_entries as [|dns rest IH]; intros all_results w rs; simpl.
  - now intros [= <-].
  - unfold mbind, io_bind. pose proof (Hstep dns channels w) as Hdns.
    destruct (test_endpoint net t dns channels w) as [[results|e] w1]; simpl in *;
      [|discriminate].
    intros Hrs Hacc. eapply IH; [exact Hrs|].
    apply Forall_app. split; [exact Hacc | now apply Hdns].
Qed.

(** In every record of a run the average latency, the jitter and the
    throughput are not negative. *)
Theorem run_tests_metrics_nonneg (t : CDNTester) (dns_entries : list string)
  (channels : list channel) (w : world S) :
  exists rs,
    fst (run_tests net t dns_entries channels w) = Returned rs /\
    Forall metrics_nonneg rs.
Proof.
  destruct (run_tests_returns net t dns_entries channels w) as (rs & Hrs & _).
  exists rs. split; [exact Hrs|].
  eapply Forall_impl;
    [apply (endpoint_loop_forall _ t (test_endpoint_metrics t) dns_entries channels [] w rs Hrs);
     constructor|].
  now intros r [H _].
Qed.

(** A record of a run whose success indicator is 0 has latency, jitter and
    throughput exactly 0: a failed item never carries a partial
    measurement. *)
Theorem run_tests_failures_carry_no_metrics (t : CDNTester) (dns_entries : list string)
  (channels : list channel) (w : world S) :
  exists rs,
    fst (run_tests net t dns_entries channels w) = Returned rs /\
    Forall failure_has_no_metrics rs.
Proof.
  destruct (run_tests_returns net t dns_entries channels w) as (rs & Hrs & _).
  exists rs. split; [exact Hrs|].
  eapply Forall_impl;
    [apply (endpoint_loop_forall _ t (test_endpoint_metrics t) dns_entries channels [] w rs Hrs);
     constructor|].
  now intros r [_ H].
Qed.

End EndpointFacts.

Lemma test_endpoint_resolves_and_classifies_once_witness :
  (exists answer,
     logged_between (Examples.start_of_run ())
       (snd (test_endpoint Examples.dead_net Examples.tester "http://cdn.example"
               [Examples.channel_1] (Examples.start_of_run ())))
     = [EvResolve "cdn.example" answer]) /\
  (exists answer looked_up probes,
     logged_between (Examples.start_of_run ())
       (snd (test_endpoint Examples.partial_net Examples.tester "https://good.example/p"
               [Examples.channel_1] (Examples.start_of_run ())))
     = EvResolve "good.example" answer
         :: EvGet (ipapi_url "198.51.100.4") None 5 looked_up :: probes /\
     length probes = 6%nat).
Proof.
  split.
  - apply (proj1 (test_endpoint_resolves_and_classifies_once Examples.dead_net
             Examples.tester "http://cdn.example" [Examples.channel_1]
             (Examples.start_of_run ())) None); reflexivity.
  - destruct (proj2 (test_endpoint_resolves_and_classifies_once Examples.partial_net
             Examples.tester "https://good.example/p" [Examples.channel_1]
             (Examples.start_of_run ())) "198.51.100.4" eq_refl)
      as (answer & looked_up & probes & Hevs & _); [discriminate|].
    exists answer, looked_up, probes. split; [exact Hevs|].
    assert (Hlen : length (logged_between (Examples.start_of_run ())
                     (snd (test_endpoint Examples.partial_net Examples.tester
                             "https://good.example/p" [Examples.channel_1]
                             (Examples.start_of_run ())))) = 8%nat)
      by (vm_compute; reflexivity).
    rewrite Hevs in Hlen. simpl in Hlen. lia.
Defined.

Lemma test_endpoint_shares_classification_witness :
  exists rs,
    fst (test_endpoint Examples.partial_net Examples.tester "https://good.example/p"
           [Examples.channel_1; Examples.channel_2] (Examples.start_of_run ())) = Returned rs /\
    Forall (fun r => ip_address r = "198.51.100.4" /\ hosting_provider r = None) rs.
Proof.
  destruct (test_endpoint_shares_classification Examples.partial_net Examples.tester
              "https://good.example/p" [Examples.channel_1; Examples.channel_2]
              (Examples.start_of_run ()))
    as (rs & ip & a & g & h & Hrs & Hall & Hcase).
  specialize (Hcase (Some "198.51.100.4") eq_refl). simpl in Hcase.
  destruct Hcase as [[= <-] Hinfo]. vm_compute in Hinfo. injection Hinfo as <- <- <-.
  exists rs. split; [exact Hrs|].
  eapply Forall_impl; [exact Hall|]. intros r (_ & Hip & _ & _ & Hh). now split.
Defined.

(* --------------------------------------------------------------------- *)
(** ** The calls to the player API *)
(* --------------------------------------------------------------------- *)

Section ApiCalls.
Context {S : Type} (api : Api S).

Lemma api_get_fst url timeout (w : world S) :
  fst (api_get api url timeout w) =
  fst (fst (api_answer api url timeout (clock_ns w) (net_state w))).
Proof.
  unfold api_get. now destruct (api_answer api url timeout _ _) as [[r dt] s].
Qed.

(** [get_xtream_categories] never raises.  It returns the array of a 200
    response, and the empty list in every other case: a request that
    raises, another status, a body that does not parse or is not an array.
    So a non-empty result is always the catalogue's own array. *)
Theorem get_xtream_categories_or_empty (t : CDNTester) (dns : string) (w : world S) :
  let api_url := player_api t dns +:+ "&action=get_live_categories" in
  let answer := fst (fst (api_answer api api_url 30 (clock_ns w) (net_state w))) in
  exists categories,
    fst (get_xtream_categories api t dns w) = Returned categories /\
    (forall resp items,
        answer = Returned resp -> api_status resp = 200%Z ->
        api_json resp = Returned (JArray items) -> categories = items) /\
    (categories <> [] ->
        exists resp, answer = Returned resp /\ api_status resp = 200%Z /\
                     api_json resp = Returned (JArray categories)).
Proof.
  cbv zeta. unfold get_xtream_categories.
  pose proof (api_get_fst (player_api t dns +:+ "&action=get_live_categories") 30 w) as Hfst.
  destruct (api_get api _ 30 w) as [r w1]. simpl in Hfst. rewrite <- Hfst. clear Hfst.
  destruct r as [resp|e]; simpl.
  - destruct (Z.eqb_spec (api_status resp) 200) as [H200|Hne]; simpl.
    + destruct (api_json resp) as [[| | | |items|fields]|e] eqn:Hjson; simpl;
        try (exists []; split; [reflexivity|]; split;
             [intros resp' items' [= <-]; congruence | congruence]).
      destruct items as [|item items]; simpl.
      * exists []. split; [reflexivity|]. split; [|congruence].
        intros resp' items' [= <-] _ Hj. rewrite Hjson in Hj. now injection Hj as <-.
      * exists (item :: items). split; [reflexivity|]. split.
        -- intros resp' items' [= <-] _ Hj. rewrite Hjson in Hj. now injection Hj as <-.
        -- intros _. exists resp. auto.
    + exists []. split; [reflexivity|]. split; [|congruence].
      intros resp' items [= <-] H200. contradiction.
  - exists []. split; [reflexivity|]. split; [discriminate | congruence].
Qed.

(** [get_channels_by_category] never raises.  It returns the array of a
    200 response, empty or not, and the empty list in every other case. *)
Theorem get_channels_by_category_or_empty (t : CDNTester) (dns category_id : string)
  (w : world S) :
  let api_url :=
    player_api t dns +:+ "&action=get_live_streams&category_id=" +:+ category_id in
  let answer := fst (fst (api_answer api api_url 30 (clock_ns w) (net_state w))) in
  exists channels,
    fst (get_channels_by_category api t dns category_id w) = Returned channels /\
    (forall resp items,
        answer = Returned resp -> api_status resp = 200%Z ->
        api_json resp = Returned (JArray items) -> channels = items) /\
    (channels <> [] ->
        exists resp, answer = Returned resp /\ api_status resp = 200%Z /\
                     api_json resp = Returned (JArray channels)).
Proof.
  cbv zeta. unfold get_channels_by_category.
  pose proof (api_get_fst
                (player_api t dns +:+ "&action=get_live_streams&category_id=" +:+ category_id)
                30 w) as Hfst.
  destruct (api_get api _ 30 w) as [r w1]. simpl in Hfst. rewrite <- Hfst. clear Hfst.
  destruct r as [resp|e]; simpl.
  - destruct (Z.eqb_spec (api_status resp) 200) as [H200|Hne]; simpl.
    + destruct (api_json resp) as [[| | | |items|fields]|e] eqn:Hjson; simpl;
        try (exists []; split; [reflexivity|]; split;
             [intros resp' items' [= <-]; congruence | congruence]).
      exists items. split; [reflexivity|]. split.
      * intros resp' items' [= <-] _ Hj. rewrite Hjson in Hj. now injection Hj as <-.
      * intros _. exists resp. auto.
    + exists []. split; [reflexivity|]. split; [|congruence].
      intros resp' items [= <-] H200. contradiction.
  - exists []. split; [reflexivity|]. split; [discriminate | congruence].
Qed.

(** [verify_xtream_credentials] never raises, and it accepts exactly the
    200 responses whose body parses, unless the body is an object whose
    [user_info] is not an object.  The account status read from [user_info]
    has no part in the verdict: an expired or banned account verifies. *)
Theorem verify_xtream_credentials_ignores_status (t : CDNTester) (dns : string)
  (w : world S) :
  let answer := fst (fst (api_answer api (player_api t dns) 10 (clock_ns w) (net_state w))) in
  exists verdict,
    fst (verify_xtream_credentials api t dns w) = Returned verdict /\
    (verdict = true <->
     exists resp data,
       answer = Returned resp /\ api_status resp = 200%Z /\
       api_json resp = Returned data /\ passes_verification data) /\
    (forall resp fields info,
        answer = Returned resp -> api_status resp = 200%Z ->
        api_json resp = Returned (JDict fields) ->
        fields !! "user_info" = Some (JDict info) ->
        verdict = true).
Proof.
  cbv zeta. unfold verify_xtream_credentials.
  pose proof (api_get_fst (player_api t dns) 10 w) as Hfst.
  destruct (api_get api _ 10 w) as [r w1]. simpl in Hfst. rewrite <- Hfst. clear Hfst.
  destruct r as [resp|e]; simpl.
  2:{ exists false. split; [reflexivity|]. split; [split; [discriminate|]|].
      - intros (resp0 & data0 & Hr & _). discriminate.
      - intros resp fields info Hr. discriminate. }
  destruct (Z.eqb_spec (api_status resp) 200) as [H200|Hne]; simpl.
  2:{ exists false. split; [reflexivity|]. split; [split; [discriminate|]|].
      - intros (resp0 & data0 & [= <-] & H200 & _). contradiction.
      - intros resp0 fields info [= <-] H200. contradiction. }
  destruct (api_json resp) as [data|e] eqn:Hjson; simpl.
  2:{ exists false. split; [reflexivity|]. split; [split; [discriminate|]|].
      - intros (resp0 & data0 & [= <-] & _ & Hj & _). congruence.
      - intros resp0 fields info [= <-] _ Hj. congruence. }
  assert (Hyes : passes_verification data ->
            exists verdict : bool, Returned true = Returned verdict /\
              (verdict = true <->
               exists resp0 data0, Returned resp = Returned resp0 /\
                 api_status resp0 = 200%Z /\ api_json resp0 = Returned data0 /\
                 passes_verification data0) /\
              (forall resp0 fields info,
                  Returned resp = Returned resp0 -> api_status resp0 = 200%Z ->
                  api_json resp0 = Returned (JDict fields) ->
                  fields !! "user_info" = Some (JDict info) -> verdict = true)).
  { intros Hp. exists true. split; [reflexivity|]. split; [|reflexivity].
    split; [|reflexivity]. intros _. exists resp, data. auto. }
  assert (Hno : ~ passes_verification data ->
            exists verdict : bool, Returned false = Returned verdict /\
              (verdict = true <->
               exists resp0 data0, Returned resp = Returned resp0 /\
                 api_status resp0 = 200%Z /\ api_json resp0 = Returned data0 /\
                 passes_verification data0) /\
              (forall resp0 fields info,
                  Returned resp = Returned resp0 -> api_status resp0 = 200%Z ->
                  api_json resp0 = Returned (JDict fields) ->
                  fields !! "user_info" = Some (JDict info) -> verdict = true)).
  { intros Hn. exists false. split; [reflexivity|]. split; [split; [discriminate|]|].
    - intros (resp0 & data0 & [= <-] & _ & Hj & Hp).
      rewrite Hjson in Hj. injection Hj as <-. contradiction.
    - intros resp0 fields info [= <-] _ Hj Hinfo. exfalso. apply Hn.
      rewrite Hjson in Hj. injection Hj as ->. simpl. now rewrite Hinfo. }
  destruct data as [| | | | items|fields]; try (apply Hyes; exact I).
  simpl in Hyes, Hno |- *.
  destruct (fields !! "user_info") as [[| | | | items|info]|] eqn:Hinfo; simpl;
    try (apply Hyes; exact I); try (apply Hno; tauto).
  destruct (is_active _); apply Hyes; exact I.
Qed.

End ApiCalls.

Lemma get_xtream_categories_or_empty_witness :
  fst (get_xtream_categories MoreExamples.catalogue_api Examples.tester "http://cdn.example"
         (Examples.start_of_run ())) = Returned MoreExamples.two_categories.
Proof.
  destruct (get_xtream_categories_or_empty MoreExamples.catalogue_api Examples.tester
              "http://cdn.example" (Examples.start_of_run ()))
    as (categories & Hret & Hsame & _).
  rewrite Hret. f_equal.
  apply (Hsame {| api_status := 200;
                  api_json := Returned (JArray MoreExamples.two_categories) |});
    reflexivity.
Defined.

Lemma get_channels_by_category_or_empty_witness :
  fst (get_channels_by_category MoreExamples.catalogue_api Examples.tester
         "http://cdn.example" "1" (Examples.start_of_run ()))
    = Returned MoreExamples.two_categories.
Proof.
  destruct (get_channels_by_category_or_empty MoreExamples.catalogue_api Examples.tester
              "http://cdn.example" "1" (Examples.start_of_run ()))
    as (channels & Hret & Hsame & _).
  rewrite Hret. f_equal.
  apply (Hsame {| api_status := 200;
                  api_json := Returned (JArray MoreExamples.two_categories) |});
    reflexivity.
Defined.

Lemma verify_xtream_credentials_ignores_status_witness :
  fst (verify_xtream_credentials MoreExamples.expired_account_api Examples.tester
         "http://cdn.example" (Examples.start_of_run ())) = Returned true.
Proof.
  destruct (verify_xtream_credentials_ignores_status MoreExamples.expired_account_api
              Examples.tester "http://cdn.example" (Examples.start_of_run ()))
    as (verdict & Hret & _ & Hinfo).
  rewrite Hret. f_equal.
  apply (Hinfo {| api_status := 200;
                  api_json := Returned (JDict {[ "user_info" :=
                                JDict {[ "status" := JText "Expired" ]} ]}) |}
               {[ "user_info" := JDict {[ "status" := JText "Expired" ]} ]}
               {[ "status" := JText "Expired" ]}); reflexivity.
Defined.

(* --------------------------------------------------------------------- *)
(** ** The selection prompts *)
(* --------------------------------------------------------------------- *)

Section Prompts.
Context {A : Type}.

Lemma pick_elem (items : list A) (indices : list Z) (x : A) :
  x ∈ pick items indices -> x ∈ items.
Proof.
  induction indices as [|i indices IH]; simpl; [intros H; now apply not_elem_of_nil in H|].
  destruct ((0 <=? i)%Z && (i <? Z.of_nat (length items))%Z); [|exact IH].
  destruct (items !! Z.to_nat i) as [item|] eqn:E; [|exact IH].
  intros H. apply elem_of_cons in H as [->|H]; [|now apply IH].
  eapply list_elem_of_lookup_2. exact E.
Qed.

Lemma take_elem (n : nat) (l : list A) (x : A) : x ∈ take n l -> x ∈ l.
Proof.
  intros H. apply list_elem_of_lookup in H as [i Hi].
  apply lookup_take_Some in Hi as [Hi _]. eapply list_elem_of_lookup_2. exact Hi.
Qed.

(** Whatever is typed at the prompts, the selection holds only items of
    the list that was offered, and the channel selection never has more
    than ten entries. *)
Theorem selection_within_offer (line : string) (offered : list A) :
  (length (select_channels line offered) <= 10)%nat /\
  (forall x, x ∈ select_channels line offered -> x ∈ offered) /\
  (forall x, x ∈ select_categories line offered -> x ∈ offered).
Proof.
  unfold select_channels, select_categories.
  destruct (str_truthy (py_strip line));
    [destruct (indices_of (py_split (py_strip line))) as [indices|e]|];
    (split; [rewrite length_take; lia|]);
    (split; [intros x Hx; apply take_elem in Hx; eauto using pick_elem|]);
    intros x Hx; eauto using pick_elem.
Qed.

Lemma indices_of_invalid (tokens : list string) (x : string) :
  x ∈ tokens -> py_int x = Raised ValueError -> indices_of tokens = Raised ValueError.
Proof.
  intros Hin Hx. induction tokens as [|y tokens IH]; [now apply not_elem_of_nil in Hin|].
  simpl. apply elem_of_cons in Hin as [<-|Hin].
  - now rewrite Hx.
  - rewrite (IH Hin). unfold py_int. destruct (match y with
      | String "+"%char rest => _ | String "-"%char rest => _ | _ => _ end); reflexivity.
Qed.

(** A blank line, and a line in which some word is not an integer, select
    the default: every category, and the first ten channels. *)
Theorem selection_falls_back_to_default (line : string) (offered : list A) :
  py_strip line = "" \/
  (exists x, x ∈ py_split (py_strip line) /\ py_int x = Raised ValueError) ->
  select_categories line offered = offered /\
  select_channels line offered = take 10 offered.
Proof.
  unfold select_categories, select_channels. intros [Hblank|(x & Hin & Hx)].
  - now rewrite Hblank.
  - rewrite (indices_of_invalid _ _ Hin Hx). now destruct (str_truthy _).
Qed.

End Prompts.

Lemma selection_falls_back_to_default_witness :
  select_channels "   " ["a"; "b"; "c"] = ["a"; "b"; "c"] /\
  select_categories "1 two 3" ["a"; "b"; "c"] = ["a"; "b"; "c"].
Proof.
  split.
  - apply (selection_falls_back_to_default "   " ["a"; "b"; "c"]). left. reflexivity.
  - apply (selection_falls_back_to_default "1 two 3" ["a"; "b"; "c"]). right.
    exists "two". split; [|reflexivity].
    vm_compute. apply elem_of_cons. right. apply elem_of_cons. now left.
Defined.

(* --------------------------------------------------------------------- *)
(** ** What a successful item records, and the classification lookup *)
(* --------------------------------------------------------------------- *)

Section Recorded.
Context {S : Type} (net : Network S).
#[local] Open Scope Q_scope.




(** A 200 answer whose [org] is present but not a string (null, a number)
    loses the whole classification: the attribute error of [org.lower()] is
    swallowed and all three fields are [None], the ASN and the location
    included. *)
Theorem get_asn_info_discards_on_bad_org (ip : string) (w : world S) (resp : response)
  (dt : N) (s : S) (fields : gmap string pyval) (org : pyval) :
  net_get net (ipapi_url ip) None 5 (clock_ns w) (net_state w) = (Returned resp, dt, s) ->
  status resp = 200%Z ->
  json resp = Returned (JObject fields) ->
  fields !! "org" = Some org ->
  (forall text, org <> PyStr text) ->
  fst (get_asn_info net ip w) = Returned (None, None, None).
Proof.
  intros Hnet H200 Hjson Horg Hbad.
  rewrite get_asn_info_eq, fst_session_get, Hnet. simpl. rewrite H200. simpl.
  unfold asn_fields. rewrite Hjson. simpl. unfold dict_get. rewrite Horg. simpl.
  destruct org as [|z|text|shown]; try reflexivity.
  now destruct (Hbad text).
Qed.

End Recorded.



Lemma get_asn_info_discards_on_bad_org_witness :
  fst (get_asn_info MoreExamples.null_org_net "192.0.2.11" (Examples.start_of_run ()))
  = Returned (None, None, None).
Proof.
  apply (get_asn_info_discards_on_bad_org MoreExamples.null_org_net "192.0.2.11"
           (Examples.start_of_run ())
           {| status := 200;
              json := Returned (JObject {[ "asn" := PyStr "AS64500"; "org" := PyNone ]});
              chunks := []; ending := None |}
           12000000%N () {[ "asn" := PyStr "AS64500"; "org" := PyNone ]} PyNone);
    try reflexivity.
  discriminate.
Defined.

(* --------------------------------------------------------------------- *)
(** ** Reading the stream up to the deadline *)
(* --------------------------------------------------------------------- *)

Section Deadline.
Context {S : Type} (net : Network S).
#[local] Open Scope Q_scope.



End Deadline.


(* --------------------------------------------------------------------- *)
(** ** The domain handed to the resolver *)
(* --------------------------------------------------------------------- *)

Section Domain.

Lemma append_nil_l (s : string) : "" +:+ s = s.
Proof. reflexivity. Qed.

Lemma replace_from_cons (old new : string) (c : ascii) (s : string) :
  replace_from old new 0 (String c s) =
    if String.prefix old (String c s)
    then new +:+ replace_from old new (String.length old - 1) s
    else String c (replace_from old new 0 s).
Proof. reflexivity. Qed.

Lemma prefix_cons (x c : ascii) (s1 s2 : string) :
  String.prefix (String x s1) (String c s2) =
    if ascii_dec x c then String.prefix s1 s2 else false.
Proof. reflexivity. Qed.

Lemma contains_cons (x : string) (c : ascii) (s : string) :
  contains x (String c s) = false ->
  String.prefix x (String c s) = false /\ contains x s = false.
Proof. simpl. intros H. now apply orb_false_iff in H. Qed.

Lemma no_http_across (a rest : string) :
  String.prefix "http:" a = false -> path_or_nothing rest ->
  String.prefix "http://" (a +:+ rest) = false.
Proof.
  intros Ha Hrest.
  do 5 (destruct a as [|? a];
        [destruct Hrest as [->|[path ->]]; reflexivity|];
        rewrite append_cons, prefix_cons; rewrite prefix_cons in Ha;
        match goal with
        | |- context [ascii_dec ?x ?y] => destruct (ascii_dec x y); [subst|reflexivity]
        end).
  destruct a; discriminate Ha.
Qed.

Lemma no_https_across (a rest : string) :
  String.prefix "https:" a = false -> path_or_nothing rest ->
  String.prefix "https://" (a +:+ rest) = false.
Proof.
  intros Ha Hrest.
  do 6 (destruct a as [|? a];
        [destruct Hrest as [->|[path ->]]; reflexivity|];
        rewrite append_cons, prefix_cons; rewrite prefix_cons in Ha;
        match goal with
        | |- context [ascii_dec ?x ?y] => destruct (ascii_dec x y); [subst|reflexivity]
        end).
  destruct a; discriminate Ha.
Qed.

Lemma replace_http_after (a rest : string) :
  contains "http:" a = false -> path_or_nothing rest ->
  py_replace "http://" "" (a +:+ rest) = a +:+ py_replace "http://" "" rest.
Proof.
  unfold py_replace. intros Ha Hrest. induction a as [|c a IH]; [reflexivity|].
  apply contains_cons in Ha as [Hhere Ha].
  rewrite append_cons, replace_from_cons, <- append_cons.
  rewrite (no_http_across _ _ Hhere Hrest), !append_cons. now rewrite (IH Ha).
Qed.

Lemma replace_https_after (a rest : string) :
  contains "https:" a = false -> path_or_nothing rest ->
  py_replace "https://" "" (a +:+ rest) = a +:+ py_replace "https://" "" rest.
Proof.
  unfold py_replace. intros Ha Hrest. induction a as [|c a IH]; [reflexivity|].
  apply contains_cons in Ha as [Hhere Ha].
  rewrite append_cons, replace_from_cons, <- append_cons.
  rewrite (no_https_across _ _ Hhere Hrest), !append_cons. now rewrite (IH Ha).
Qed.

Lemma replace_keeps_path (old rest : string) :
  old = "http://" \/ old = "https://" ->
  path_or_nothing rest -> path_or_nothing (py_replace old "" rest).
Proof.
  intros Hold [->|[path ->]].
  - left. now destruct Hold as [->| ->].
  - right. exists (py_replace old "" path). now destruct Hold as [->| ->].
Qed.

Lemma split_head_authority (a rest : string) :
  contains "/" a = false -> path_or_nothing rest -> split_head "/" (a +:+ rest) = a.
Proof.
  intros Ha Hrest. induction a as [|c a IH].
  - destruct Hrest as [->|[path ->]]; reflexivity.
  - apply contains_cons in Ha as [Hhere Ha]. rewrite append_cons.
    rewrite prefix_cons in Hhere.
    change (split_head "/" (String c (a +:+ rest)))
      with (if Ascii.eqb c "/" then "" else String c (split_head "/" (a +:+ rest))).
    destruct (ascii_dec "/" c) as [<-|Hne].
    + destruct a; discriminate Hhere.
    + destruct (Ascii.eqb_spec c "/") as [->|_]; [contradiction|]. now rewrite (IH Ha).
Qed.

Lemma strip_http (x : string) : py_replace "http://" "" ("http://" +:+ x) = py_replace "http://" "" x.
Proof. destruct x; reflexivity. Qed.

Lemma keep_https (x : string) :
  py_replace "http://" "" ("https://" +:+ x) = "https://" +:+ py_replace "http://" "" x.
Proof. destruct x; reflexivity. Qed.

Lemma strip_https (x : string) :
  py_replace "https://" "" ("https://" +:+ x) = py_replace "https://" "" x.
Proof. destruct x; reflexivity. Qed.

Lemma endpoint_domain_bare (a rest : string) :
  contains "/" a = false -> contains "http:" a = false -> contains "https:" a = false ->
  path_or_nothing rest ->
  split_head "/" (py_replace "https://" "" (py_replace "http://" "" (a +:+ rest))) = a.
Proof.
  intros Hslash Hhttp Hhttps Hrest.
  rewrite (replace_http_after _ _ Hhttp Hrest).
  assert (Hrest1 : path_or_nothing (py_replace "http://" "" rest))
    by (apply replace_keeps_path; auto).
  rewrite (replace_https_after _ _ Hhttps Hrest1).
  apply split_head_authority; [exact Hslash|]. apply replace_keeps_path; auto.
Qed.

(** The domain that [test_endpoint] hands to the resolver is the authority
    of the endpoint: the scheme [http://] or [https://] and the path are
    removed, and nothing else, so a port stays in the name that is
    resolved.  This holds for an authority without "/" that contains
    neither "http:" nor "https:". *)
Theorem endpoint_domain_is_authority (authority rest : string) :
  contains "/" authority = false ->
  contains "http:" authority = false ->
  contains "https:" authority = false ->
  rest = "" \/ (exists path, rest = "/" +:+ path) ->
  endpoint_domain (authority +:+ rest) = authority /\
  endpoint_domain ("http://" +:+ authority +:+ rest) = authority /\
  endpoint_domain ("https://" +:+ authority +:+ rest) = authority.
Proof.
  intros Hslash Hhttp Hhttps Hrest. unfold endpoint_domain.
  split; [|split].
  - now apply endpoint_domain_bare.
  - rewrite strip_http. now apply endpoint_domain_bare.
  - rewrite keep_https, strip_https.
    rewrite (replace_http_after _ _ Hhttp Hrest).
    assert (Hrest1 : path_or_nothing (py_replace "http://" "" rest))
      by (apply replace_keeps_path; auto).
    rewrite (replace_https_after _ _ Hhttps Hrest1).
    apply split_head_authority; [exact Hslash|]. apply replace_keeps_path; auto.
Qed.

End Domain.

Lemma endpoint_domain_is_authority_witness :
  endpoint_domain "https://good.example:8080/live/p" = "good.example:8080".
Proof.
  apply (endpoint_domain_is_authority "good.example:8080" "/live/p"); try reflexivity.
  right. now exists "live/p".
Defined.

(* --------------------------------------------------------------------- *)
(** ** Reading back a number *)
(* --------------------------------------------------------------------- *)

Section Numbers.










End Numbers.
